(** * Conectric USB gateway: protocol engine of [index.js]

    A shallow embedding of the decode path of the gateway (hex codec,
    temperature and humidity formulas, [parseMessage], the serial [data]
    handler of [startGateway]) and the properties of its specification.

    Conventions.
    - A JavaScript string is the list of its UTF-16 code units ([jsstring]);
      [js "..."] turns a literal into one.
    - [parseInt] yields an integer or NaN: [option Z], [None] being NaN.
    - Other numbers are exact rationals or NaN ([number]): the rounding of
      IEEE doubles is not modelled, so a value is the real number the
      source's formula denotes.
    - The code runs on an event loop; a handler is a function from the state
      it reads to the state it leaves, the list of effects it performed
      (console lines, callback invocations) and how it completed. *)

From Stdlib Require Import ZArith NArith QArith Qround List String Ascii Lia.
From Stdlib Require Import PrimFloat.
From stdpp Require Import gmap strings list.

Local Open Scope Z_scope.
#[local] Set Warnings "-inexact-float".

(** ** JavaScript builtins used by the program *)

Module JS.

Abbreviation jsstring := (list N) (only parsing).

Fixpoint js (s : string) : jsstring :=
  match s with
  | EmptyString => []
  | String a s' => N_of_ascii a :: js s'
  end.

Definition len (s : jsstring) : Z := Z.of_nat (length s).

(** Index arguments below 0 count as 0, those above the length as the
    length. *)
Definition clamp (s : jsstring) (i : Z) : nat :=
  Z.to_nat (Z.min (Z.max i 0) (len s)).

(** [s.substring(a, b)]: the two clamped indices are swapped when [a > b]. *)
Definition substring (s : jsstring) (a b : Z) : jsstring :=
  let a' := clamp s a in
  let b' := clamp s b in
  take (Nat.max a' b' - Nat.min a' b') (drop (Nat.min a' b') s).

(** [s.substring(a)] *)
Definition substring_from (s : jsstring) (a : Z) : jsstring :=
  drop (clamp s a) s.

(** [s.substr(start, length)] for [0 <= start]. *)
Definition substr (s : jsstring) (start length : nat) : jsstring :=
  take length (drop start s).

Definition startsWith (s prefix : jsstring) : bool :=
  bool_decide (take (length prefix) s = prefix).

(** [array.includes(x)] on an array of strings. *)
Definition includes (l : list jsstring) (x : jsstring) : bool :=
  bool_decide (x ∈ l).

(** StrWhiteSpaceChar: white space and line terminators. *)
Definition isWhiteSpace (c : N) : bool :=
  bool_decide (c ∈ [9; 10; 11; 12; 13; 32; 160; 5760; 8192; 8193; 8194; 8195;
                    8196; 8197; 8198; 8199; 8200; 8201; 8202; 8232; 8233;
                    8239; 8287; 12288; 65279]%N).

Definition digitValue (c : N) : option Z :=
  if ((48 <=? c) && (c <=? 57))%N then Some (Z.of_N c - 48)
  else if ((97 <=? c) && (c <=? 122))%N then Some (Z.of_N c - 87)
  else if ((65 <=? c) && (c <=? 90))%N then Some (Z.of_N c - 55)
  else None.

Definition radixDigit (radix : Z) (c : N) : option Z :=
  match digitValue c with
  | Some d => if d <? radix then Some d else None
  | None => None
  end.

Fixpoint skipWhiteSpace (s : jsstring) : jsstring :=
  match s with
  | c :: s' => if isWhiteSpace c then skipWhiteSpace s' else s
  | [] => []
  end.

(** The digits of the longest prefix of [s] made of digits of the radix. *)
Fixpoint leadingDigits (radix : Z) (s : jsstring) : list Z :=
  match s with
  | c :: s' =>
      match radixDigit radix c with
      | Some d => d :: leadingDigits radix s'
      | None => []
      end
  | [] => []
  end.

Definition digitsValue (radix : Z) (ds : list Z) : Z :=
  fold_left (fun acc d => acc * radix + d) ds 0.

(** [parseInt(s, radix)] for a radix given explicitly: leading white space,
    an optional sign, for radix 16 an optional [0x] or [0X], then the longest
    run of digits; NaN ([None]) when that run is empty.  The result is the
    exact integer (JavaScript rounds it to a double beyond 2^53). *)
Definition parseInt (s : jsstring) (radix : Z) : option Z :=
  let s1 := skipWhiteSpace s in
  let '(sign, s2) :=
    match s1 with
    | 45%N :: t => (-1, t)
    | 43%N :: t => (1, t)
    | _ => (1, s1)
    end in
  let s3 :=
    if radix =? 16 then
      match s2 with
      | 48%N :: 120%N :: t => t
      | 48%N :: 88%N :: t => t
      | _ => s2
      end
    else s2 in
  match leadingDigits radix s3 with
  | [] => None
  | ds => Some (sign * digitsValue radix ds)
  end.

(** The digit characters [0-9a-z] of [Number.prototype.toString]. *)
Definition digitChar (d : N) : N :=
  (if d <? 10 then 48 + d else 87 + d)%N.

Fixpoint digitsOf (fuel : nat) (radix n : N) (acc : jsstring) : jsstring :=
  match fuel with
  | O => acc
  | S fuel' =>
      let acc' := digitChar (n mod radix) :: acc in
      if (n / radix =? 0)%N then acc' else digitsOf fuel' radix (n / radix) acc'
  end.

(** [n.toString(radix)] for a natural number [n]: no leading zero, ["0"] for
    0.  [N.size_nat n] steps are always enough, a step removing at least one
    bit. *)
Definition natToString (n radix : N) : jsstring :=
  digitsOf (S (N.size_nat n)) radix n [].

(** ToString of an integer or NaN, as in a template literal.  (From 1e21 on
    JavaScript switches to exponent notation; the program converts only
    two-digit hexadecimal values and string lengths.) *)
Definition toString (x : option Z) : jsstring :=
  match x with
  | None => js "NaN"
  | Some z =>
      if z <? 0 then js "-" ++ natToString (Z.to_N (- z)) 10
      else natToString (Z.to_N z) 10
  end.

(** ToInt32, the conversion the bit operators apply to their operands. *)
Definition ToInt32 (x : option Z) : Z :=
  match x with
  | None => 0
  | Some z => (z + 2147483648) mod 4294967296 - 2147483648
  end.

(** [x & k] *)
Definition bitAnd (x : option Z) (k : Z) : Z :=
  Z.land (ToInt32 x) (ToInt32 (Some k)).

(** [String.fromCharCode(x)]: one code unit, ToUint16 of [x]. *)
Definition fromCharCode (x : option Z) : N :=
  match x with
  | None => 0%N
  | Some z => Z.to_N (z mod 65536)
  end.

(** *** Numbers *)

Inductive number :=
  | NaN
  | Num (q : Q).

Definition ofInt (x : option Z) : number :=
  match x with
  | None => NaN
  | Some z => Num (inject_Z z)
  end.

Definition lift2 (f : Q -> Q -> Q) (x y : number) : number :=
  match x, y with
  | Num a, Num b => Num (f a b)
  | _, _ => NaN
  end.

Definition add := lift2 Qplus.
Definition sub := lift2 Qminus.
Definition mul := lift2 Qmult.
(** Division by a non-zero divisor (the program divides by literals only). *)
Definition div := lift2 Qdiv.

(** [x > y]: false when either side is NaN. *)
Definition gt (x y : number) : bool :=
  match x, y with
  | Num a, Num b => negb (Qle_bool a b)
  | _, _ => false
  end.

(** [Math.round]: the nearest integer, a tie going up. *)
Definition Math_round (x : number) : number :=
  match x with
  | NaN => NaN
  | Num q => Num (inject_Z (Qfloor (q + (1 # 2))))
  end.

(** The integer nearest to [q], a tie going away from zero. *)
Definition roundHalfAway (q : Q) : Z :=
  if Qle_bool 0 q then Qfloor (q + (1 # 2)) else - Qfloor (- q + (1 # 2)).

(** Modelled from the spec: [roundTo(x, precision)] of the round-to package,
    which is not part of the sources; the specification writes it round2 and
    round0.  The decimal point is moved right by [precision] places, the
    value rounded to the nearest integer (a tie going away from zero) and the
    point moved back.  NaN stays NaN. *)
Definition roundTo (x : number) (precision : nat) : number :=
  match x with
  | NaN => NaN
  | Num q =>
      let scale := Z.to_pos (10 ^ Z.of_nat precision) in
      Num (roundHalfAway (q * inject_Z (Zpos scale)) # scale)
  end.

(** [s.toLowerCase()], as far as a comparison with ASCII text can tell: the
    letters A to Z, the Kelvin sign (U+212A, which lowers to k) and the
    dotted capital I (U+0130, which lowers to i followed by U+0307) are the
    only characters whose lower case contains an ASCII character; every other
    code unit is kept as it is. *)
Definition toLowerCase (s : jsstring) : jsstring :=
  flat_map (fun c =>
              if ((65 <=? c) && (c <=? 90))%N then [(c + 32)%N]
              else if (c =? 8490)%N then [107%N]
              else if (c =? 304)%N then [105%N; 775%N]
              else [c]) s.

End JS.

Import JS.

(** ** Hex codec ([hexEncode], [hexDecode]) *)

(** The body of the loop of [hexEncode]: the code unit in base 16, padded
    with a 0 when it has one digit only. *)
Definition hexEncodeChar (c : N) : jsstring :=
  let encodedChar := natToString c 16 in
  if (length encodedChar =? 1)%nat then js "0" ++ encodedChar else encodedChar.

Definition hexEncode (message : jsstring) : jsstring :=
  fold_left (fun encodedMessage c => encodedMessage ++ hexEncodeChar c)
            message [].

(** The loop of [hexDecode] from index [n], stepping by two: [substr(n, 2)]
    is the next two code units, or the last one when one is left. *)
Fixpoint hexDecodeLoop (message decodedMessage : jsstring) : jsstring :=
  match message with
  | [] => decodedMessage
  | [a] => decodedMessage ++ [fromCharCode (parseInt [a] 16)]
  | a :: b :: rest =>
      hexDecodeLoop rest (decodedMessage ++ [fromCharCode (parseInt [a; b] 16)])
  end.

Definition hexDecode (message : jsstring) : jsstring :=
  hexDecodeLoop message [].

(** ** Configuration ([PARAM_SCHEMA], [runGateway]) *)

(** The options object after validation: each flag is a boolean or absent.
    [onSensorMessage] is required and is the [OnSensorMessage] effect below;
    [onGatewayReady] records whether the optional callback was given. *)
Record params := {
  onGatewayReady : bool;
  sendAdcWithLux : option bool;
  sendRawData : option bool;
  sendRawLux : option bool;
  sendBootMessages : option bool;
  sendStatusMessages : option bool;
  sendDecodedPayload : option bool;
  sendEventCount : option bool;
  useFahrenheitTemps : option bool;
  useMillisecondTimestamps : option bool;
  switchOpenValue : option bool;
  deDuplicateBursts : option bool;
  decodeTextMessages : option bool;
  debugMode : option bool;
  sendHopData : option bool
}.

(** Truthiness of a flag: absent ([undefined]) and [false] are falsy. *)
Definition truthy (flag : option bool) : bool :=
  match flag with
  | Some true => true
  | _ => false
  end.

(** [if (! params.hasOwnProperty(k)) params[k] = true] *)
Definition onByDefault (flag : option bool) : option bool :=
  match flag with
  | None => Some true
  | Some b => Some b
  end.

(** The options as [runGateway] stores them in [conectricUsbGateway.params]. *)
Definition runGateway (p : params) : params :=
  {| onGatewayReady := onGatewayReady p;
     sendAdcWithLux := sendAdcWithLux p;
     sendRawData := sendRawData p;
     sendRawLux := sendRawLux p;
     sendBootMessages := onByDefault (sendBootMessages p);
     sendStatusMessages := sendStatusMessages p;
     sendDecodedPayload := onByDefault (sendDecodedPayload p);
     sendEventCount := sendEventCount p;
     useFahrenheitTemps := useFahrenheitTemps p;
     useMillisecondTimestamps := useMillisecondTimestamps p;
     switchOpenValue := switchOpenValue p;
     deDuplicateBursts := onByDefault (deDuplicateBursts p);
     decodeTextMessages := onByDefault (decodeTextMessages p);
     debugMode := debugMode p;
     sendHopData := sendHopData p |}.

(** The options of the basic example: only [onSensorMessage] is given. *)
Definition noOptions : params :=
  {| onGatewayReady := false;
     sendAdcWithLux := None; sendRawData := None; sendRawLux := None;
     sendBootMessages := None; sendStatusMessages := None;
     sendDecodedPayload := None; sendEventCount := None;
     useFahrenheitTemps := None; useMillisecondTimestamps := None;
     switchOpenValue := None; deDuplicateBursts := None;
     decodeTextMessages := None; debugMode := None; sendHopData := None |}.

(** ** Registry *)

Definition MESSAGE_TYPES : list (jsstring * jsstring) :=
  [ (js "30", js "tempHumidity");
    (js "31", js "switch");
    (js "32", js "motion");
    (js "36", js "rs485Request");
    (js "37", js "rs485Response");
    (js "38", js "rs485ChunkRequest");
    (js "39", js "rs485ChunkResponse");
    (js "42", js "rs485ChunkEnvelopeResponse");
    (js "44", js "moisture");
    (js "45", js "tempHumidityLight");
    (js "46", js "tempHumidityAdc");
    (js "60", js "boot");
    (js "61", js "text");
    (js "70", js "rs485Config") ].

(** [MESSAGE_TYPES[key]].  The object literal inherits from
    [Object.prototype], none of whose property names has fewer than three
    characters, and the program looks up keys of at most two. *)
Fixpoint lookupType (table : list (jsstring * jsstring)) (key : jsstring)
  : option jsstring :=
  match table with
  | [] => None
  | (k, v) :: table' =>
      if decide (k = key) then Some v else lookupType table' key
  end.

Definition BROADCAST_MESSAGE_TYPES : list jsstring :=
  [ js "30"; js "31"; js "32"; js "37"; js "39"; js "42"; js "44"; js "45";
    js "46"; js "60"; js "61" ].

Definition IGNORABLE_MESSAGE_TYPES : list jsstring :=
  [ js "33"; js "34"; js "35" ].

Definition KNOWN_COMMANDS : list jsstring :=
  [ js "DP"; js "MR"; js "SS"; js "VER" ].

Definition PARITY_NONE : jsstring := js "none".
Definition PARITY_ODD : jsstring := js "odd".
Definition PARTITY_EVEN : jsstring := js "even".
(** [conectricUsbGateway.PARITY_EVEN]: the property is declared as
    [PARTITY_EVEN], so this read yields [undefined]. *)
Definition PARITY_EVEN : option jsstring := None.

Definition isBroadcastMessageType (messageType : jsstring) : bool :=
  includes BROADCAST_MESSAGE_TYPES messageType.

(** ** Messages *)

Inductive value :=
  | VNumber (n : number)
  | VString (s : jsstring)
  | VBoolean (b : bool)
  | VUndefined.

(** An object literal: its own properties in insertion order. *)
Definition object := list (string * value).

Definition hasField (o : object) (k : string) : bool :=
  existsb (fun kv => bool_decide (kv.1 = k)) o.

(** [o[k] = v]: an existing property keeps its place. *)
Definition setField (o : object) (k : string) (v : value) : object :=
  if hasField o k
  then map (fun kv => if decide (kv.1 = k) then (k, v) else kv) o
  else o ++ [(k, v)].

(** [{ ...o, ...source }] *)
Definition spread (o source : object) : object :=
  fold_left (fun acc kv => setField acc kv.1 kv.2) source o.

Definition getField (o : object) (k : string) : option value :=
  snd <$> find (fun kv => bool_decide (kv.1 = k)) o.

Record sensorMessage := {
  type : jsstring;
  payload : option object;
  sensorId : jsstring;
  sequenceNumber : option Z;
  timestamp : Z;
  numHops : option (option Z);
  maxHops : option (option Z);
  rawData : option jsstring
}.

Definition withType (m : sensorMessage) (t : jsstring) : sensorMessage :=
  {| type := t; payload := payload m; sensorId := sensorId m;
     sequenceNumber := sequenceNumber m; timestamp := timestamp m;
     numHops := numHops m; maxHops := maxHops m; rawData := rawData m |}.

Definition withPayload (m : sensorMessage) (o : option object) : sensorMessage :=
  {| type := type m; payload := o; sensorId := sensorId m;
     sequenceNumber := sequenceNumber m; timestamp := timestamp m;
     numHops := numHops m; maxHops := maxHops m; rawData := rawData m |}.

(** The payload object of a message that still has one. *)
Definition payloadOf (m : sensorMessage) : object := default [] (payload m).

(** [message.payload.k = v] *)
Definition setPayload (m : sensorMessage) (k : string) (v : value) : sensorMessage :=
  withPayload m (Some (setField (payloadOf m) k v)).

(** ** State, effects and completion of a handler *)

(** The mutable fields of [conectricUsbGateway] and the store of the
    de-duplication cache: per key the value and the time, in milliseconds,
    at which it expires.  ([parser] and [serialPort] are handles of the
    transport.) *)
Record state := {
  macAddress : option jsstring;
  contikiVersion : option jsstring;
  conectricVersion : option jsstring;
  store : gmap jsstring (bool * Z)
}.

Definition withStore (s : state) (c : gmap jsstring (bool * Z)) : state :=
  {| macAddress := macAddress s; contikiVersion := contikiVersion s;
     conectricVersion := conectricVersion s; store := c |}.

Inductive effect :=
  | ConsoleLog (line : jsstring)
  | ConsoleError (line : jsstring)
  | OnSensorMessage (m : sensorMessage)
  | OnGatewayReady.

(** How a block of statements ends: it runs to its end, executes [return],
    or throws. *)
Inductive completion (A : Type) :=
  | Normal (a : A)
  | Return
  | Throw (e : jsstring).
Arguments Normal {A} a.
Arguments Return {A}.
Arguments Throw {A} e.

Definition M (A : Type) : Type := state -> completion A * state * list effect.

Definition ret {A} (a : A) : M A := fun s => (Normal a, s, []).

Definition bind {A B} (m : M A) (k : A -> M B) : M B :=
  fun s =>
    match m s with
    | (Normal a, s1, es1) =>
        let '(r, s2, es2) := k a s1 in (r, s2, es1 ++ es2)
    | (Return, s1, es1) => (Return, s1, es1)
    | (Throw e, s1, es1) => (Throw e, s1, es1)
    end.

Notation "x <- m ;; k" := (bind m (fun x => k))
  (at level 100, m at next level, right associativity).
Notation "m ;; k" := (bind m (fun _ => k))
  (at level 100, right associativity).

Definition return_ {A} : M A := fun s => (Return, s, []).
Definition throw {A} (e : jsstring) : M A := fun s => (Throw e, s, []).
Definition perform (e : effect) : M unit := fun s => (Normal tt, s, [e]).
Definition getState : M state := fun s => (Normal s, s, []).
Definition putState (s : state) : M unit := fun _ => (Normal tt, s, []).

Definition when (b : bool) (m : M unit) : M unit :=
  if b then m else ret tt.

Definition console_log (line : jsstring) : M unit := perform (ConsoleLog line).
Definition console_error (line : jsstring) : M unit :=
  perform (ConsoleError line).

(** The sensor messages among the effects, in order of delivery. *)
Definition delivered (es : list effect) : list sensorMessage :=
  omap (fun e => match e with OnSensorMessage m => Some m | _ => None end) es.

(** ** De-duplication cache *)

(** The memory-cache-ttl package, of which the program calls [init], [get]
    and [set], is not part of the sources; its three operations are modelled
    from sections 3 and 4.3 of the specification: a retention of 30 seconds
    checked every 3 seconds without jitter, entries that expire 30 seconds
    after they are set, and a cleanup evaluated on that fixed cadence and
    not on access. *)
Module cache.

(** [cache.init({ ttl: 30, interval: 3, randomize: false })], in seconds. *)
Definition ttl : Z := 30.
Definition interval : Z := 3.

(** Modelled from the spec: [cache.get] of memory-cache-ttl.  It returns
    the value the store holds for the key, expired or not, and [undefined]
    when it holds none. *)
Definition get (key : jsstring) : M (option bool) :=
  s <- getState ;; ret (fst <$> store s !! key).

(** Modelled from the spec: [cache.set] of memory-cache-ttl.  The entry
    expires [ttl] seconds after the call. *)
Definition set (now : Z) (key : jsstring) (v : bool) : M unit :=
  s <- getState ;;
  putState (withStore s (<[key := (v, now + ttl * 1000)]> (store s))).

(** Modelled from the spec: the cleanup of memory-cache-ttl, a timer
    callback that runs every [interval] seconds and removes the entries
    whose expiry time has passed. *)
Definition cleanExpired (now : Z) : M unit :=
  s <- getState ;;
  putState (withStore s (filter (fun kv => now <= kv.2.2) (store s))).

End cache.

(** ** Temperature and humidity ([calculateTemperature], [calculateHumidity]) *)

Definition calculateTemperature (p : params) (tempRaw : jsstring) : object :=
  let temperature :=
    roundTo (add (Num (-46.85))
                 (mul (div (ofInt (parseInt tempRaw 16)) (Num 65536))
                      (Num 175.72))) 2 in
  if truthy (useFahrenheitTemps p) then
    [ ("temperature"%string,
       VNumber (roundTo (add (mul temperature (div (Num 9) (Num 5))) (Num 32)) 2));
      ("temperatureUnit"%string, VString (js "F")) ]
  else
    [ ("temperature"%string, VNumber temperature);
      ("temperatureUnit"%string, VString (js "C")) ].

Definition calculateHumidity (humidityRaw : jsstring) : number :=
  roundTo (add (Num (-6))
               (mul (Num 125)
                    (div (ofInt (parseInt humidityRaw 16)) (Num 65536)))) 2.

(** ** The frame parser ([parseMessage]) and the serial handler *)

Definition quote : jsstring := [34%N].

Definition valueOfInt (x : option Z) : value := VNumber (ofInt x).

(** [o.length === 0] after [! o]: a registry entry that is missing or empty. *)
Definition missingOrEmpty (o : option jsstring) : bool :=
  match o with
  | None => true
  | Some s => bool_decide (s = [])
  end.

Section Gateway.

(** [Math.pow] with a fractional exponent has no rational value: it is a
    parameter of the model. *)
Variable Math_pow : number -> number -> number.

Variable p : params.

Definition debug : bool := truthy (debugMode p).

(** [case 'tempHumidity'] *)
Definition decode_tempHumidity (battery : number) (messageData : jsstring)
    (message : sensorMessage) : M sensorMessage :=
  let '(tempRaw, humidityRaw, message) :=
    if len messageData =? 8 then
      (substring messageData 0 4, substring_from messageData 4, message)
    else
      (substring messageData 10 14, substring_from messageData 14,
       if truthy (sendEventCount p)
       then setPayload message "eventCount"
              (valueOfInt (parseInt (substring messageData 2 10) 16))
       else message) in
  ret (withPayload message
         (Some (setField
                  (spread (setField (spread [] (payloadOf message))
                                    "battery" (VNumber battery))
                          (calculateTemperature p tempRaw))
                  "humidity" (VNumber (calculateHumidity humidityRaw))))).

(** [case 'tempHumidityAdc'] *)
Definition decode_tempHumidityAdc (battery : number) (messageData : jsstring)
    (message : sensorMessage) : M sensorMessage :=
  let message := setPayload message "battery" (VNumber battery) in
  let message :=
    if truthy (sendEventCount p)
    then setPayload message "eventCount"
           (valueOfInt (parseInt (substring messageData 2 10) 16))
    else message in
  let rawTemp := substring messageData 10 14 in
  let rawHumidity := substring messageData 14 18 in
  let rawAdcMax := substring messageData 22 26 in
  let rawAdcIn := substring_from messageData 26 in
  let message :=
    withPayload message
      (Some (setField
               (setField
                  (setField
                     (spread (spread [] (payloadOf message))
                             (calculateTemperature p rawTemp))
                     "humidity" (VNumber (calculateHumidity rawHumidity)))
                  "adcIn" (VString rawAdcIn))
               "adcMax" (VString rawAdcMax))) in
  when debug
    (console_log (js "Raw adc in: " ++ rawAdcIn) ;;
     console_log (js "Raw adc max: " ++ rawAdcMax) ;;
     console_log (js "Raw battery: " ++ substring messageData 18 22)) ;;
  ret message.

(** [case 'tempHumidityLight'] *)
Definition decode_tempHumidityLight (battery : number) (messageData : jsstring)
    (message : sensorMessage) : M sensorMessage :=
  let message := setPayload message "battery" (VNumber battery) in
  let message :=
    if truthy (sendEventCount p)
    then setPayload message "eventCount"
           (valueOfInt (parseInt (substring messageData 2 10) 16))
    else message in
  let rawTemp := substring messageData 10 14 in
  let rawHumidity := substring messageData 14 18 in
  let rawAdcMax := substring messageData 22 26 in
  let rawAdcIn := substring_from messageData 26 in
  let lux :=
    roundTo (mul (Num 0.003)
                 (Math_pow (ofInt (parseInt rawAdcIn 16))
                           (sub (Num 1.89)
                                (div (sub (Num 3.7) battery) (Num 25))))) 0 in
  let bucketedLux := Math_round (div lux (Num 100)) in
  let bucketedLux := if gt bucketedLux (Num 15) then Num 15 else bucketedLux in
  let message :=
    withPayload message
      (Some (setField
               (setField
                  (spread (spread [] (payloadOf message))
                          (calculateTemperature p rawTemp))
                  "humidity" (VNumber (calculateHumidity rawHumidity)))
               "bucketedLux" (VNumber bucketedLux))) in
  let message :=
    if truthy (sendRawLux p) then setPayload message "lux" (VNumber lux)
    else message in
  let message :=
    if truthy (sendAdcWithLux p)
    then setPayload (setPayload message "adcIn" (VString rawAdcIn))
                    "adcMax" (VString rawAdcMax)
    else message in
  when debug
    (console_log (js "Raw adc in: " ++ rawAdcIn) ;;
     console_log (js "Raw adc max: " ++ rawAdcMax) ;;
     console_log (js "Raw battery: " ++ substring messageData 18 22)) ;;
  ret message.

(** [case 'moisture'] *)
Definition decode_moisture (battery : number) (messageData : jsstring)
    (message : sensorMessage) : M sensorMessage :=
  let message := setPayload message "battery" (VNumber battery) in
  message <-
    (if startsWith messageData (js "21") || startsWith messageData (js "22")
     then
       if negb (truthy (sendStatusMessages p)) then return_
       else
         let message := withType message (js "moistureStatus") in
         ret (withPayload message
                (Some (setField
                         (spread
                            (setField (spread [] (payloadOf message))
                                      "moisture"
                                      (VBoolean (startsWith messageData (js "21"))))
                            (calculateTemperature p (substring messageData 10 14)))
                         "humidity"
                         (VNumber (calculateHumidity
                                     (substring_from messageData 14))))))
     else
       ret (setPayload message "moisture"
              (VBoolean (startsWith messageData (js "81"))))) ;;
  ret (if truthy (sendEventCount p)
       then setPayload message "eventCount"
              (valueOfInt (parseInt (substring messageData 2 10) 16))
       else message).

(** [case 'motion'] *)
Definition decode_motion (battery : number) (messageData : jsstring)
    (message : sensorMessage) : M sensorMessage :=
  let message := setPayload message "battery" (VNumber battery) in
  message <-
    (if startsWith messageData (js "20") then
       if negb (truthy (sendStatusMessages p)) then return_
       else ret (withType message (js "motionStatus"))
     else ret (setPayload message "motion" (VBoolean true))) ;;
  ret (if (len messageData =? 10) && truthy (sendEventCount p)
       then setPayload message "eventCount"
              (valueOfInt (parseInt (substring_from messageData 2) 16))
       else message).

(** [case 'switch'] *)
Definition decode_switch (battery : number) (messageData : jsstring)
    (message : sensorMessage) : M sensorMessage :=
  let message := setPayload message "battery" (VNumber battery) in
  let message :=
    if (len messageData =? 10) && truthy (sendEventCount p)
    then setPayload message "eventCount"
           (valueOfInt (parseInt (substring_from messageData 2) 16))
    else message in
  if startsWith messageData (js "21") || startsWith messageData (js "22") then
    if negb (truthy (sendStatusMessages p)) then return_
    else
      let message := withType message (js "switchStatus") in
      ret (setPayload message "switch"
             (VBoolean (if truthy (switchOpenValue p)
                        then startsWith messageData (js "21")
                        else startsWith messageData (js "22"))))
  else
    ret (setPayload message "switch"
           (VBoolean (if truthy (switchOpenValue p)
                      then startsWith messageData (js "81")
                      else startsWith messageData (js "82")))).

(** [case 'boot'] *)
Definition decode_boot (battery : number) (messageData data : jsstring)
    (message : sensorMessage) : M sensorMessage :=
  if truthy (sendBootMessages p) then
    let message := setPayload message "battery" (VNumber battery) in
    if decide (messageData = js "00") then
      ret (setPayload message "resetCause" (VString (js "powerOn")))
    else if decide (messageData = js "01") then
      ret (setPayload message "resetCause" (VString (js "externalReset")))
    else if decide (messageData = js "02") then
      ret (setPayload message "resetCause" (VString (js "watchdogReset")))
    else
      let message :=
        setPayload message "resetCause" (VString (js "unknown")) in
      when debug
        (console_error
           (js "Boot message received with unknown reset cause " ++ quote
            ++ messageData ++ quote ++ js ", full message was " ++ quote
            ++ data ++ quote ++ js ".")) ;;
      ret message
  else return_.

(** [case 'rs485Config'] *)
Definition decode_rs485Config (messageData : jsstring) (message : sensorMessage)
  : M sensorMessage :=
  if negb (len messageData =? 7) then
    when debug
      (console_error
         (js "Ignoring rs485Config message with payload length "
          ++ toString (Some (len messageData))
          ++ js ", was expecting length 7.")) ;;
    return_
  else
    let baudRate := substring messageData 0 2 in
    let parity := substring messageData 2 4 in
    let stopBits := substring messageData 4 6 in
    let bitMask := substring_from messageData 6 in
    message <-
      (if decide (baudRate = js "00") then
         ret (setPayload message "baudRate" (VString (js "2400")))
       else if decide (baudRate = js "01") then
         ret (setPayload message "baudRate" (VString (js "4800")))
       else if decide (baudRate = js "02") then
         ret (setPayload message "baudRate" (VString (js "9600")))
       else if decide (baudRate = js "03") then
         ret (setPayload message "baudRate" (VString (js "19200")))
       else
         when debug
           (console_error
              (js "Invalid baudRate received in rs485Config message, hex was "
               ++ quote ++ baudRate ++ quote ++ js ".")) ;;
         ret (setPayload message "baudRate" (VString (js "?")))) ;;
    message <-
      (if decide (parity = js "00") then
         ret (setPayload message "parity" (VString PARITY_NONE))
       else if decide (parity = js "01") then
         ret (setPayload message "parity" (VString PARITY_ODD))
       else if decide (parity = js "02") then
         ret (setPayload message "parity"
                (from_option VString VUndefined PARITY_EVEN))
       else
         when debug
           (console_error
              (js "Invalid parity received in rs485Config message, hex was "
               ++ quote ++ parity ++ quote ++ js ".")) ;;
         ret (setPayload message "parity" (VString (js "?")))) ;;
    message <-
      (if decide (stopBits = js "00") then
         ret (setPayload message "stopBits" (VNumber (Num 1)))
       else if decide (stopBits = js "01") then
         ret (setPayload message "stopBits" (VNumber (Num 2)))
       else
         when debug
           (console_error
              (js "Invalid stopBits received in rs485Config message, hex was "
               ++ quote ++ stopBits ++ quote ++ js ".")) ;;
         ret (setPayload message "stopBits" (VNumber (Num (-1))))) ;;
    (if decide (bitMask = js "00") then
       ret (setPayload message "bitMask" (VNumber (Num 8)))
     else if decide (bitMask = js "01") then
       ret (setPayload message "bitMask" (VNumber (Num 7)))
     else
       when debug
         (console_error
            (js "Invalid bitMask received in rs485Config message, hex was "
             ++ quote ++ bitMask ++ quote ++ js ".")) ;;
       ret (setPayload message "bitMask" (VNumber (Num (-1))))).

(** [switch (messageTypeString)] of [parseMessage]; a type without a case
    of its own ([rs485ChunkRequest]) takes the [default] branch and keeps
    its empty payload. *)
Definition decodePayload (messageType messageTypeString : jsstring)
    (battery : number) (messageData data : jsstring) (message : sensorMessage)
  : M sensorMessage :=
  if decide (messageTypeString = js "tempHumidity") then
    decode_tempHumidity battery messageData message
  else if decide (messageTypeString = js "tempHumidityAdc") then
    decode_tempHumidityAdc battery messageData message
  else if decide (messageTypeString = js "tempHumidityLight") then
    decode_tempHumidityLight battery messageData message
  else if decide (messageTypeString = js "moisture") then
    decode_moisture battery messageData message
  else if decide (messageTypeString = js "motion") then
    decode_motion battery messageData message
  else if decide (messageTypeString = js "switch") then
    decode_switch battery messageData message
  else if decide (messageTypeString = js "boot") then
    decode_boot battery messageData data message
  else if decide (messageTypeString = js "rs485Config") then
    decode_rs485Config messageData message
  else if decide (messageTypeString = js "rs485Request") then
    ret (setPayload message "data" (VString messageData))
  else if decide (messageTypeString = js "rs485Response") then
    ret (setPayload (setPayload message "battery" (VNumber battery))
                    "rs485" (VString messageData))
  else if decide (messageTypeString = js "rs485ChunkEnvelopeResponse") then
    ret (setPayload
           (setPayload (setPayload message "battery" (VNumber battery))
                       "numChunks"
                       (valueOfInt (parseInt (substring messageData 0 2) 16)))
           "chunkSize"
           (valueOfInt (parseInt (substring_from messageData 2) 16)))
  else if decide (messageTypeString = js "rs485ChunkResponse") then
    ret (setPayload (setPayload message "battery" (VNumber battery))
                    "data" (VString messageData))
  else if decide (messageTypeString = js "text") then
    let message := setPayload message "battery" (VNumber battery) in
    ret (setPayload message "text"
           (VString (if truthy (decodeTextMessages p)
                     then hexDecode messageData
                     else messageData)))
  else
    when debug
      (console_log (js "Ignoring unknown message type " ++ quote
                    ++ messageType ++ quote)) ;;
    ret message.

(** The de-duplication step of [parseMessage] (lines 666 to 681). *)
Definition checkCache (now : Z) (data sourceAddr : jsstring)
    (sequenceNumber : option Z) (messageData : jsstring) : M unit :=
  when (truthy (deDuplicateBursts p))
    (let cacheKey := sourceAddr ++ toString sequenceNumber ++ messageData in
     cached <- cache.get cacheKey ;;
     if negb (truthy cached) then cache.set now cacheKey true
     else
       when debug
         (console_log
            (js "Dropping message " ++ quote ++ data ++ quote
             ++ js ", already processed message from this burst.")) ;;
       return_).

(** Lines 692 to 1026 of [parseMessage]: the hop fields of a broadcast
    type, the raw record, and the payload, added to the message. *)
Definition finishMessage
    (fullMessage data messageType messageTypeString : jsstring)
    (battery : number) (messageData : jsstring) (message : sensorMessage)
  : M sensorMessage :=
  message <-
    (if isBroadcastMessageType messageType then
       when debug
         (console_log (js "Message type " ++ quote ++ messageType ++ quote
                       ++ js " is a broadcast message type.")) ;;
       ret (if truthy (sendHopData p) then
              {| type := type message; payload := payload message;
                 sensorId := sensorId message;
                 sequenceNumber := sequenceNumber message;
                 timestamp := timestamp message;
                 numHops := Some (parseInt (substring data 4 6) 16);
                 maxHops := Some (parseInt (substring data 6 8) 16);
                 rawData := rawData message |}
            else message)
     else
       when debug
         (console_log (js "Message type " ++ quote ++ messageType ++ quote
                       ++ js " is not a broadcast message type.")) ;;
       ret message) ;;
  let message :=
    if truthy (sendRawData p) then
      {| type := type message; payload := payload message;
         sensorId := sensorId message;
         sequenceNumber := sequenceNumber message;
         timestamp := timestamp message;
         numHops := numHops message; maxHops := maxHops message;
         rawData := Some fullMessage |}
    else message in
  if negb (truthy (sendDecodedPayload p)) then
    ret (withPayload message None)
  else
    decodePayload messageType messageTypeString battery messageData data
                  message.

(** [moment().valueOf()] or [moment().unix()] at clock [now]. *)
Definition timestampAt (now : Z) : Z :=
  if truthy (useMillisecondTimestamps p) then now else now / 1000.

(** The rest of [parseMessage] (lines 683 to 1028): the message is built,
    completed, and passed to the callback. *)
Definition deliver (now : Z)
    (fullMessage data messageType messageTypeString sourceAddr : jsstring)
    (sequenceNumber : option Z) (battery : number) (messageData : jsstring)
  : M unit :=
  let message :=
    {| type := messageTypeString;
       payload := Some [];
       sensorId := sourceAddr;
       sequenceNumber := sequenceNumber;
       timestamp := timestampAt now;
       numHops := None;
       maxHops := None;
       rawData := None |} in
  message <-
    finishMessage fullMessage data messageType messageTypeString battery
                  messageData message ;;
  perform (OnSensorMessage message).

(** [parseMessage(data)], [now] being the clock in milliseconds. *)
Definition parseMessage (now : Z) (data : jsstring) : M unit :=
  let fullMessage := data in
  when debug (console_log fullMessage) ;;
  (* Chop off the last 4 which are CRC. *)
  let data := substring data 0 (len data - 4) in
  when debug (console_log (js "Removed CRC from data, leaving: " ++ data)) ;;
  let hexHeader := parseInt (substring data 0 2) 16 in
  let headerLength := bitAnd hexHeader 31 in
  let headerType := bitAnd hexHeader 128 in
  let payloadType := bitAnd hexHeader 96 in
  if negb (headerType =? 0) then
    when debug
      (console_log
         (js "Dropping message " ++ quote ++ fullMessage ++ quote
          ++ js " as messages with extended headers are unsupported in this version.")) ;;
    return_
  else if negb (payloadType =? 32) then
    when debug
      (console_log
         (js "Dropping message " ++ quote ++ fullMessage ++ quote
          ++ js " as this payload type is unsupported in this version.")) ;;
    return_
  else
  let messageType :=
    substring data (2 + headerLength * 2) (4 + headerLength * 2) in
  if includes IGNORABLE_MESSAGE_TYPES messageType then
    (* The template literal of this line reads [fullMesage], a name that is
       declared nowhere: evaluating it throws before anything is logged. *)
    when debug (throw (js "ReferenceError: fullMesage is not defined")) ;;
    return_
  else
  let messageTypeString := lookupType MESSAGE_TYPES messageType in
  if missingOrEmpty messageTypeString then
    when debug
      (console_log (js "Ignoring unknown message type " ++ quote
                    ++ messageType ++ quote ++ js ".")) ;;
    return_
  else
  let messageTypeString := default [] messageTypeString in
  let sourceAddr := substring data 8 12 in
  let sequenceNumber := parseInt (substring data 2 4) 16 in
  let payloadLength :=
    parseInt (substring data (0 + headerLength * 2) (2 + headerLength * 2)) 16 in
  let battery :=
    div (ofInt (parseInt (substring data (4 + headerLength * 2)
                                         (6 + headerLength * 2)) 16))
        (Num 10) in
  let messageData := substring_from data (6 + headerLength * 2) in
  checkCache now data sourceAddr sequenceNumber messageData ;;
  deliver now fullMessage data messageType messageTypeString sourceAddr
          sequenceNumber battery messageData.

(** Truthiness of an identity field: [undefined] and the empty string are
    falsy. *)
Definition truthyString (x : option jsstring) : bool :=
  match x with
  | Some (_ :: _) => true
  | _ => false
  end.

(** The [data] listener that [startGateway] registers on the line parser. *)
Definition onData (now : Z) (data : jsstring) : M unit :=
  s <- getState ;;
  if startsWith data (js ">") && truthyString (conectricVersion s)
     && truthyString (contikiVersion s) && truthyString (macAddress s) then
    (* Found a message and we have started up properly. *)
    parseMessage now (substring_from data 1)
  else if startsWith data (js "MR:") then
    let mac := substring_from data 3 in
    putState {| macAddress := Some mac;
                contikiVersion := contikiVersion s;
                conectricVersion := conectricVersion s;
                store := store s |} ;;
    console_log (js "USB router mac address is " ++ mac ++ js ".")
  else if decide (data = js "DP:Ok") then
    console_log (js "Switched gateway to dump payload mode.")
  else if decide (data = js "SS:Ok") then
    console_log (js "Switched gateway to sink mode.") ;;
    when (onGatewayReady p) (perform OnGatewayReady)
  else if startsWith (toLowerCase data) (js "ver:contiki") then
    let version := substring_from data 12 in
    putState {| macAddress := macAddress s;
                contikiVersion := Some version;
                conectricVersion := conectricVersion s;
                store := store s |} ;;
    console_log (js "USB router Contiki version: " ++ version)
  else if startsWith (toLowerCase data) (js "ver:conectric-v") then
    let version := substring_from data 15 in
    putState {| macAddress := macAddress s;
                contikiVersion := contikiVersion s;
                conectricVersion := Some version;
                store := store s |} ;;
    console_log (js "USB router Conectric version: " ++ version)
  else
    when (negb (includes KNOWN_COMMANDS data))
      (when debug (console_log (js "Unprocessed: " ++ data))).

(** The [catch] branch of [startGateway]: no router device is present. *)
Definition startGateway_noDevice : M unit :=
  s <- getState ;;
  console_log (js "Waiting for USB router device.") ;;
  putState {| macAddress := None; contikiVersion := None;
              conectricVersion := None; store := store s |}.

(** *** The event loop *)

Inductive event :=
  | SerialData (now : Z) (data : jsstring)
  | CacheTimer (now : Z)
  | DeviceLost.

Inductive outcome :=
  | Returned
  | Threw (e : jsstring).

Definition handler (ev : event) : M unit :=
  match ev with
  | SerialData now data => onData now data
  | CacheTimer now => cache.cleanExpired now
  | DeviceLost => startGateway_noDevice
  end.

(** One turn of the loop: the handler runs to completion. *)
Definition runHandler (m : M unit) (s : state)
  : outcome * state * list effect :=
  match m s with
  | (Normal _, s', es) => (Returned, s', es)
  | (Return, s', es) => (Returned, s', es)
  | (Throw e, s', es) => (Threw e, s', es)
  end.

(** The events in turn; an exception that escapes a handler ends the run. *)
Fixpoint run (evs : list event) (s : state) : outcome * state * list effect :=
  match evs with
  | [] => (Returned, s, [])
  | ev :: evs' =>
      match runHandler (handler ev) s with
      | (Returned, s', es) =>
          let '(o, s'', es') := run evs' s' in (o, s'', es ++ es')
      | (Threw e, s', es) => (Threw e, s', es)
      end
  end.

End Gateway.

(** The state before any record arrives. *)
Definition initialState : state :=
  {| macAddress := None; contikiVersion := None; conectricVersion := None;
     store := ∅ |}.

(** A stand-in for [Math.pow] where no light reading is decoded. *)
Definition noPow (x y : number) : number := NaN.


(** ** The fields [parseMessage] reads from a record

    The same expressions as the constants of [parseMessage], as functions of
    the record it is given (the text after the [>]). *)

Definition stripCRC (data : jsstring) : jsstring :=
  substring data 0 (len data - 4).

Definition hexHeaderOf (data : jsstring) : option Z :=
  parseInt (substring (stripCRC data) 0 2) 16.

Definition headerLengthOf (data : jsstring) : Z :=
  bitAnd (hexHeaderOf data) 31.

Definition headerTypeOf (data : jsstring) : Z :=
  bitAnd (hexHeaderOf data) 128.

Definition payloadTypeOf (data : jsstring) : Z :=
  bitAnd (hexHeaderOf data) 96.

Definition messageTypeOf (data : jsstring) : jsstring :=
  substring (stripCRC data) (2 + headerLengthOf data * 2)
            (4 + headerLengthOf data * 2).

Definition sourceAddrOf (data : jsstring) : jsstring :=
  substring (stripCRC data) 8 12.

Definition sequenceNumberOf (data : jsstring) : option Z :=
  parseInt (substring (stripCRC data) 2 4) 16.

Definition batteryOf (data : jsstring) : number :=
  div (ofInt (parseInt (substring (stripCRC data)
                                  (4 + headerLengthOf data * 2)
                                  (6 + headerLengthOf data * 2)) 16))
      (Num 10).

Definition messageDataOf (data : jsstring) : jsstring :=
  substring_from (stripCRC data) (6 + headerLengthOf data * 2).

(** The fingerprint of a frame in the de-duplication cache. *)
Definition cacheKeyOf (data : jsstring) : jsstring :=
  sourceAddrOf data ++ toString (sequenceNumberOf data) ++ messageDataOf data.

(** The header byte is accepted: standard header, simple payload. *)
Definition headerAccepted (data : jsstring) : Prop :=
  headerTypeOf data = 0 /\ payloadTypeOf data = 32.

(** The effects and the sensor messages of one turn. *)
Definition effectsOf (r : outcome * state * list effect) : list effect := r.2.
Definition stateOf (r : outcome * state * list effect) : state := r.1.2.
Definition outcomeOf (r : outcome * state * list effect) : outcome := r.1.1.

(** ** Vocabulary of the properties *)

(** [tame m]: [m] neither reads nor writes the state, does not throw and
    does not invoke the sensor-message callback (it may log and it may
    [return]). *)
Definition tame {A} (m : M A) : Prop :=
  exists r es,
    (forall s, m s = (r, s, es)) /\ (forall e, r <> Throw e) /\ delivered es = [].


(** [m] with its timestamp set to [t]. *)
Definition retime (t : Z) (m : sensorMessage) : sensorMessage :=
  {| type := type m; payload := payload m; sensorId := sensorId m;
     sequenceNumber := sequenceNumber m; timestamp := t;
     numHops := numHops m; maxHops := maxHops m; rawData := rawData m |}.

Definition retimeResult (t : Z)
    (r : completion sensorMessage * state * list effect)
  : completion sensorMessage * state * list effect :=
  let '(c, s, es) := r in
  (match c with
   | Normal m => Normal (retime t m)
   | Return => Return
   | Throw e => Throw e
   end, s, es).

(** A step of the decoding that never looks at the timestamp. *)
Definition timeless (f : sensorMessage -> M sensorMessage) : Prop :=
  forall t m s, f (retime t m) s = retimeResult t (f m s).

(** The two lines [parseMessage] logs first in debug mode. *)
Definition preLogs (p : params) (data : jsstring) : list effect :=
  if debug p then
    [ConsoleLog data;
     ConsoleLog (js "Removed CRC from data, leaving: " ++ stripCRC data)]
  else [].

(** The effects [es0] followed by those of [r]. *)
Definition prepend {A} (es0 : list effect)
    (r : completion A * state * list effect) : completion A * state * list effect :=
  let '(c, s, es) := r in (c, s, es0 ++ es).

(** The tail of [parseMessage] once the header and the type are accepted. *)
Definition acceptedTail (Math_pow : number -> number -> number) (p : params)
    (now : Z) (data : jsstring) (messageTypeString : jsstring) : M unit :=
  bind (checkCache p now (stripCRC data) (sourceAddrOf data)
                   (sequenceNumberOf data) (messageDataOf data))
       (fun _ => deliver Math_pow p now data (stripCRC data) (messageTypeOf data)
                         messageTypeString (sourceAddrOf data)
                         (sequenceNumberOf data) (batteryOf data)
                         (messageDataOf data)).

(** A byte is written as two digits that [parseInt] reads back. *)
Definition byteRoundTrips (c : N) : bool :=
  match hexEncodeChar c with
  | [a; b] => bool_decide (parseInt [a; b] 16 = Some (Z.of_N c))
  | _ => false
  end.


(** Every cleanup pass among the events runs at a time up to [bound]. *)
Definition sweepsUpTo (bound : Z) (evs : list event) : Prop :=
  Forall (fun ev => match ev with CacheTimer t => t <= bound | _ => True end) evs.

(** The events are cleanup passes only. *)
Definition onlySweeps (evs : list event) : Prop :=
  Forall (fun ev => match ev with CacheTimer _ => True | _ => False end) evs.

(** ** The formulas and tables of the specification *)





(** The two formulas before rounding, in IEEE double arithmetic, as the
    JavaScript engine evaluates them. *)
Definition celsiusDouble (t : float) : float :=
  (-46.85 + (t / 65536) * 175.72)%float.

Definition humidityDouble (h : float) : float :=
  (-6 + 125 * (h / 65536))%float.

(** The reset causes as the specification lists them. *)
Definition resetCauseOf (messageData : jsstring) : jsstring :=
  if decide (messageData = js "00") then js "powerOn"
  else if decide (messageData = js "01") then js "externalReset"
  else if decide (messageData = js "02") then js "watchdogReset"
  else js "unknown".

(** ** Sample configurations, states and records *)

(** The options of the basic example after [runGateway]: boot messages,
    decoded payload, de-duplication and text decoding on, the rest off. *)
Definition celsiusOptions : params := runGateway noOptions.

(** The same with debug mode on. *)
Definition debugOptions : params :=
  {| onGatewayReady := false;
     sendAdcWithLux := None; sendRawData := None; sendRawLux := None;
     sendBootMessages := Some true; sendStatusMessages := None;
     sendDecodedPayload := Some true; sendEventCount := None;
     useFahrenheitTemps := None; useMillisecondTimestamps := None;
     switchOpenValue := None; deDuplicateBursts := Some true;
     decodeTextMessages := Some true; debugMode := Some true;
     sendHopData := None |}.

(** Boot and status messages off, with and without the decoded payload. *)
Definition filtersOff : params :=
  {| onGatewayReady := false;
     sendAdcWithLux := None; sendRawData := None; sendRawLux := None;
     sendBootMessages := Some false; sendStatusMessages := Some false;
     sendDecodedPayload := Some true; sendEventCount := None;
     useFahrenheitTemps := None; useMillisecondTimestamps := None;
     switchOpenValue := None; deDuplicateBursts := Some true;
     decodeTextMessages := Some true; debugMode := None;
     sendHopData := None |}.

Definition filtersOffNoPayload : params :=
  {| onGatewayReady := false;
     sendAdcWithLux := None; sendRawData := None; sendRawLux := None;
     sendBootMessages := Some false; sendStatusMessages := Some false;
     sendDecodedPayload := Some false; sendEventCount := None;
     useFahrenheitTemps := None; useMillisecondTimestamps := None;
     switchOpenValue := None; deDuplicateBursts := Some true;
     decodeTextMessages := Some true; debugMode := None;
     sendHopData := None |}.

(** A gateway that has identified itself, with an empty cache. *)
Definition readyState : state :=
  {| macAddress := Some (js "1234"); contikiVersion := Some (js ".0");
     conectricVersion := Some (js "2.0"); store := ∅ |}.

(** The bring-up records of the end-to-end example and its frame record. *)
Definition bringUp : list event :=
  [ SerialData 1000 (js "MR:1234");
    SerialData 1100 (js "ver:contiki1.0");
    SerialData 1200 (js "ver:conectric-v2.0");
    SerialData 1300 (js "SS:Ok") ].

Definition exampleFrame : jsstring := js ">300030ff00001234000029xxxxCRCC".

(** A tempHumidity frame in the layout [parseMessage] reads: header byte 26
    (header length 6, simple payload), sequence number 01, hop bytes 00 00,
    source 1234, payload length 07, type code 30, battery 1d, temperature
    8000, humidity 4000, and four CRC characters. *)
Definition tempHumidityFrame : jsstring :=
  js ">26010000123407301d80004000abcd".

(** The same frame as [parseMessage] receives it. *)
Definition tempHumidityData : jsstring := substring_from tempHumidityFrame 1.

(** The message it decodes to, at a clock between 2 and 3 seconds. *)
Definition tempHumidityMessage : sensorMessage :=
  {| type := js "tempHumidity";
     payload := Some [ ("battery"%string, VNumber (Num 2.9));
                       ("temperature"%string, VNumber (Num 41.01));
                       ("temperatureUnit"%string, VString (js "C"));
                       ("humidity"%string, VNumber (Num 25.25)) ];
     sensorId := js "1234";
     sequenceNumber := Some 1;
     timestamp := 2;
     numHops := None;
     maxHops := None;
     rawData := None |}.

(** The same layout with bit 7 of the header byte set (extended header). *)
Definition extendedHeaderFrame : jsstring :=
  js "a6010000123407301d80004000abcd".

(** A frame of the ignorable type 33, and one of type 47, which the
    registry does not have. *)
Definition ignorableFrame : jsstring := js "26010000123403331dabcd".
Definition unknownTypeFrame : jsstring := js "26010000123403471dabcd".

(** A boot frame (type code 60) with reset cause 00, a motion status frame
    (type code 32, marker 20) and an rs485Config frame (type code 70) whose
    message data has four characters instead of seven. *)
Definition bootFrame : jsstring := js "26010000123403601d00abcd".
Definition motionStatusFrame : jsstring := js "26020000123403321d20abcd".
Definition shortConfigFrame : jsstring := js "26030000123405701d0001abcd".


(** The cleanup passes of the first half minute, one every
    [cache.interval] seconds. *)
Definition sweeps : list event :=
  map (fun k => CacheTimer (k * (cache.interval * 1000)))
      [1; 2; 3; 4; 5; 6; 7; 8; 9; 10].

(** * Properties *)

(** ** The builtins on examples *)

Example substring_swaps : substring (js "abcdef") 4 2 = js "cd".
Proof. reflexivity. Qed.

Example substring_clamps : substring (js "ab") 0 (len (js "ab") - 4) = js "".
Proof. reflexivity. Qed.

Example parseInt_prefix : parseInt (js " -0x1Fg") 16 = Some (-31).
Proof. reflexivity. Qed.

Example parseInt_NaN : parseInt (js "xx") 16 = None.
Proof. reflexivity. Qed.

Example toString_negative : toString (Some (-150)) = js "-150".
Proof. reflexivity. Qed.

Example roundTo_tie : roundTo (Num (-24.885)) 2 = Num (-24.89).
Proof. reflexivity. Qed.

Example hexEncode_bytes : hexEncode [0; 10; 255]%N = js "000aff".
Proof. reflexivity. Qed.

Example hexDecode_text : hexDecode (js "486921") = js "Hi!".
Proof. reflexivity. Qed.

(** ** Hex codec *)

Lemma hexEncode_cons (c : N) (s : jsstring) :
  hexEncode (c :: s) = hexEncodeChar c ++ hexEncode s.
Proof.
  unfold hexEncode. simpl.
  assert (G : forall l acc,
             fold_left (fun m x => m ++ hexEncodeChar x) l acc
             = acc ++ fold_left (fun m x => m ++ hexEncodeChar x) l []).
  { induction l as [|x l IH]; intros acc; simpl.
    - by rewrite app_nil_r.
    - rewrite IH. rewrite (IH (hexEncodeChar x)). by rewrite app_assoc. }
  apply G.
Qed.

Lemma bytes_round_trip :
  forallb byteRoundTrips (map N.of_nat (seq 0 256)) = true.
Proof. vm_compute. reflexivity. Qed.

Lemma hexEncodeChar_byte (c : N) :
  (c < 256)%N ->
  exists a b, hexEncodeChar c = [a; b] /\ parseInt [a; b] 16 = Some (Z.of_N c).
Proof.
  intros Hc.
  pose proof bytes_round_trip as H.
  rewrite forallb_forall in H.
  specialize (H c).
  assert (Hin : In c (map N.of_nat (seq 0 256))).
  { apply in_map_iff. exists (N.to_nat c). split; [lia|].
    apply in_seq. lia. }
  specialize (H Hin). unfold byteRoundTrips in H.
  destruct (hexEncodeChar c) as [|a [|b [|? ?]]]; try discriminate.
  exists a, b. split; [reflexivity|].
  by apply bool_decide_eq_true in H.
Qed.

Lemma hexDecodeLoop_encoded (s acc : jsstring) :
  Forall (fun c => (c < 256)%N) s ->
  hexDecodeLoop (hexEncode s) acc = acc ++ s.
Proof.
  intros Hs. revert acc.
  induction Hs as [|c s Hc Hs IH]; intros acc.
  - simpl. by rewrite app_nil_r.
  - rewrite hexEncode_cons.
    destruct (hexEncodeChar_byte c Hc) as (a & b & -> & Hp).
    simpl. rewrite Hp, IH.
    unfold fromCharCode.
    rewrite Z.mod_small by lia.
    rewrite N2Z.id. by rewrite <- app_assoc.
Qed.

(** C8: for every string [s] whose code units are all below 256,
    decoding the hex encoding of [s] gives [s] back. *)
Theorem hexDecode_hexEncode (s : jsstring) :
  Forall (fun c => (c < 256)%N) s ->
  hexDecode (hexEncode s) = s.
Proof.
  intros Hs. unfold hexDecode. by rewrite hexDecodeLoop_encoded.
Qed.

Lemma hexDecode_hexEncode_witness :
  Forall (fun c => (c < 256)%N) (js "Hi!" ++ [0; 255]%N)
  /\ hexDecode (hexEncode (js "Hi!" ++ [0; 255]%N)) = js "Hi!" ++ [0; 255]%N.
Proof.
  assert (H : Forall (fun c => (c < 256)%N) (js "Hi!" ++ [0; 255]%N)).
  { repeat constructor. }
  split; [exact H | exact (hexDecode_hexEncode _ H)].
Defined.

(** ** Computations that leave the state alone *)

Lemma delivered_app (es1 es2 : list effect) :
  delivered (es1 ++ es2) = delivered es1 ++ delivered es2.
Proof. unfold delivered. apply omap_app. Qed.

Lemma tame_ret {A} (a : A) : tame (ret a).
Proof. exists (Normal a), []. repeat split; congruence. Qed.

Lemma tame_return {A} : tame (@return_ A).
Proof. exists Return, []. repeat split; congruence. Qed.

Lemma tame_console_log (line : jsstring) : tame (console_log line).
Proof. exists (Normal tt), [ConsoleLog line]. repeat split; congruence. Qed.

Lemma tame_console_error (line : jsstring) : tame (console_error line).
Proof. exists (Normal tt), [ConsoleError line]. repeat split; congruence. Qed.

Lemma tame_bind {A B} (m : M A) (k : A -> M B) :
  tame m -> (forall a, tame (k a)) -> tame (bind m k).
Proof.
  intros (r & es & Hm & Hr & Hd) Hk.
  destruct r as [a| |e].
  - destruct (Hk a) as (r' & es' & Hk' & Hr' & Hd').
    exists r', (es ++ es'). repeat split; [|exact Hr'|].
    + intros s. unfold bind. by rewrite Hm, Hk'.
    + by rewrite delivered_app, Hd, Hd'.
  - exists Return, es. repeat split; [|congruence|exact Hd].
    intros s. unfold bind. by rewrite Hm.
  - by destruct (Hr e).
Qed.

Lemma tame_when (b : bool) (m : M unit) : tame m -> tame (when b m).
Proof. destruct b; [done|]. intros _. apply tame_ret. Qed.

Create HintDb tame.
#[local] Hint Resolve tame_ret tame_return tame_console_log
  tame_console_error : tame.

(** One step on a goal [tame m]: a sequence, or a branch on a condition. *)
Ltac tame_step :=
  match goal with
  | |- tame (bind _ _) => apply tame_bind; [|intros ?]
  | |- tame (when _ _) => apply tame_when
  | |- tame (if ?b then _ else _) => destruct b
  | |- tame (let '(_, _) := ?x in _) => destruct x
  | |- tame _ => solve [auto with tame]
  end.

Ltac tame_auto := cbv zeta; repeat tame_step.

Section DecodersAreTame.

Variable Math_pow : number -> number -> number.
Variable p : params.
Variables (battery : number) (messageData data : jsstring).
Variable (message : sensorMessage).

Lemma tame_tempHumidity : tame (decode_tempHumidity p battery messageData message).
Proof. unfold decode_tempHumidity. tame_auto. Qed.

Lemma tame_tempHumidityAdc :
  tame (decode_tempHumidityAdc p battery messageData message).
Proof. unfold decode_tempHumidityAdc. tame_auto. Qed.

Lemma tame_tempHumidityLight :
  tame (decode_tempHumidityLight Math_pow p battery messageData message).
Proof. unfold decode_tempHumidityLight. tame_auto. Qed.

Lemma tame_moisture : tame (decode_moisture p battery messageData message).
Proof. unfold decode_moisture. tame_auto. Qed.

Lemma tame_motion : tame (decode_motion p battery messageData message).
Proof. unfold decode_motion. tame_auto. Qed.

Lemma tame_switch : tame (decode_switch p battery messageData message).
Proof. unfold decode_switch. tame_auto. Qed.

Lemma tame_boot : tame (decode_boot p battery messageData data message).
Proof. unfold decode_boot. tame_auto. Qed.

Lemma tame_rs485Config : tame (decode_rs485Config p messageData message).
Proof. unfold decode_rs485Config. tame_auto. Qed.

Lemma tame_decodePayload (messageType messageTypeString : jsstring) :
  tame (decodePayload Math_pow p messageType messageTypeString battery
                      messageData data message).
Proof.
  unfold decodePayload.
  repeat (match goal with
          | |- tame (if ?b then _ else _) => destruct b
          end;
          [solve [auto using tame_tempHumidity, tame_tempHumidityAdc,
                    tame_tempHumidityLight, tame_moisture, tame_motion,
                    tame_switch, tame_boot, tame_rs485Config with tame]|]).
  tame_auto.
Qed.

End DecodersAreTame.

Lemma tame_finishMessage (Math_pow : number -> number -> number) (p : params)
    (fullMessage data messageType messageTypeString : jsstring)
    (battery : number) (messageData : jsstring) (message : sensorMessage) :
  tame (finishMessage Math_pow p fullMessage data messageType
                      messageTypeString battery messageData message).
Proof.
  unfold finishMessage. cbv zeta.
  apply tame_bind; [tame_auto|]. intros message'.
  destruct (negb _); [apply tame_ret|apply tame_decodePayload].
Qed.

(** ** The frame parser, case by case *)

Lemma bind_when_log {B} (b : bool) (line : jsstring) (k : unit -> M B) (s : state) :
  bind (when b (console_log line)) k s
  = prepend (if b then [ConsoleLog line] else []) (k tt s).
Proof.
  unfold bind, when, console_log, perform, ret, prepend.
  destruct b; destruct (k tt s) as [[c s'] es]; reflexivity.
Qed.

Lemma prepend_prepend {A} (es0 es1 : list effect)
    (r : completion A * state * list effect) :
  prepend es0 (prepend es1 r) = prepend (es0 ++ es1) r.
Proof. destruct r as [[c s] es]. unfold prepend. by rewrite app_assoc. Qed.

Lemma parseMessage_cases Math_pow p now data s :
  parseMessage Math_pow p now data s =
  prepend (preLogs p data)
    (if negb (headerTypeOf data =? 0) then
       (Return, s,
        if debug p then
          [ConsoleLog
             (js "Dropping message " ++ quote ++ data ++ quote
              ++ js " as messages with extended headers are unsupported in this version.")]
        else [])
     else if negb (payloadTypeOf data =? 32) then
       (Return, s,
        if debug p then
          [ConsoleLog
             (js "Dropping message " ++ quote ++ data ++ quote
              ++ js " as this payload type is unsupported in this version.")]
        else [])
     else if includes IGNORABLE_MESSAGE_TYPES (messageTypeOf data) then
       if debug p
       then (Throw (js "ReferenceError: fullMesage is not defined"), s, [])
       else (Return, s, [])
     else
       match lookupType MESSAGE_TYPES (messageTypeOf data) with
       | Some (c :: name) => acceptedTail Math_pow p now data (c :: name) s
       | _ =>
           (Return, s,
            if debug p then
              [ConsoleLog (js "Ignoring unknown message type " ++ quote
                           ++ messageTypeOf data ++ quote ++ js ".")]
            else [])
       end).
Proof.
  unfold parseMessage. cbv zeta.
  rewrite !bind_when_log, prepend_prepend.
  fold (stripCRC data). fold (hexHeaderOf data).
  fold (headerTypeOf data) (payloadTypeOf data) (headerLengthOf data).
  fold (messageTypeOf data).
  unfold preLogs.
  assert (E : (if debug p then [ConsoleLog data] else []) ++
              (if debug p then [ConsoleLog (js "Removed CRC from data, leaving: " ++ stripCRC data)] else [])
              = if debug p then [ConsoleLog data; ConsoleLog (js "Removed CRC from data, leaving: " ++ stripCRC data)] else []).
  { by destruct (debug p). }
  rewrite E. f_equal.
  destruct (negb (headerTypeOf data =? 0)).
  { unfold bind, when, console_log, perform, ret, return_. destruct (debug p); reflexivity. }
  destruct (negb (payloadTypeOf data =? 32)).
  { unfold bind, when, console_log, perform, ret, return_. destruct (debug p); reflexivity. }
  destruct (includes IGNORABLE_MESSAGE_TYPES (messageTypeOf data)).
  { unfold bind, when, throw, return_, ret. destruct (debug p); reflexivity. }
  destruct (lookupType MESSAGE_TYPES (messageTypeOf data)) as [[|c name]|] eqn:E2;
    cbn [missingOrEmpty].
  - unfold bind, when, console_log, perform, ret, return_. destruct (debug p); reflexivity.
  - rewrite bool_decide_eq_false_2 by discriminate.
    cbn [default]. reflexivity.
  - unfold bind, when, console_log, perform, ret, return_. destruct (debug p); reflexivity.
Qed.

Lemma delivered_prepend {A} (es0 : list effect)
    (r : completion A * state * list effect) :
  delivered (prepend es0 r).2 = delivered es0 ++ delivered r.2.
Proof. destruct r as [[c s] es]. apply delivered_app. Qed.

Lemma delivered_preLogs (p : params) (data : jsstring) :
  delivered (preLogs p data) = [].
Proof. unfold preLogs. by destruct (debug p). Qed.

(** ** Frames with an unsupported header byte *)

(** C2: a record whose header byte has bit 7 set, or whose bits 5 and 6
    are not the simple-payload value 32, makes [parseMessage] return without
    an exception, without a callback and without touching the state,
    whatever the rest of the record and the configuration are. *)
Theorem unsupported_header_dropped
    (Math_pow : number -> number -> number) (p : params) (now : Z)
    (data : jsstring) (s : state) :
  bitAnd (hexHeaderOf data) 128 <> 0 \/ bitAnd (hexHeaderOf data) 96 <> 32 ->
  exists es,
    runHandler (parseMessage Math_pow p now data) s = (Returned, s, es)
    /\ delivered es = [].
Proof.
  intros H. unfold runHandler. rewrite parseMessage_cases.
  fold (headerTypeOf data) in H. fold (payloadTypeOf data) in H.
  destruct (headerTypeOf data =? 0) eqn:E1; cbn [negb].
  - destruct (payloadTypeOf data =? 32) eqn:E2; cbn [negb].
    + apply Z.eqb_eq in E1, E2. destruct H; contradiction.
    + eexists. split; [reflexivity|].
      rewrite delivered_app, delivered_preLogs. by destruct (debug p).
  - eexists. split; [reflexivity|].
    rewrite delivered_app, delivered_preLogs. by destruct (debug p).
Qed.

Lemma unsupported_header_dropped_witness :
  (bitAnd (hexHeaderOf extendedHeaderFrame) 128 <> 0
   \/ bitAnd (hexHeaderOf extendedHeaderFrame) 96 <> 32)
  /\ exists es,
       runHandler (parseMessage noPow debugOptions 0 extendedHeaderFrame)
                  initialState = (Returned, initialState, es)
       /\ delivered es = [].
Proof.
  assert (H : bitAnd (hexHeaderOf extendedHeaderFrame) 128 <> 0
              \/ bitAnd (hexHeaderOf extendedHeaderFrame) 96 <> 32).
  { left. vm_compute. discriminate. }
  split; [exact H|].
  exact (unsupported_header_dropped noPow debugOptions 0 extendedHeaderFrame
                                    initialState H).
Defined.

(** ** Ignorable and unknown message types *)

(** A frame whose type code is ignorable or missing from the registry is
    never delivered and leaves the state as it is; it makes [parseMessage]
    return unless the type is ignorable and debug mode is on. *)
Lemma unregistered_type_not_delivered
    (Math_pow : number -> number -> number) (p : params) (now : Z)
    (data : jsstring) (s : state) :
  includes IGNORABLE_MESSAGE_TYPES (messageTypeOf data) = true
  \/ lookupType MESSAGE_TYPES (messageTypeOf data) = None ->
  exists o es,
    runHandler (parseMessage Math_pow p now data) s = (o, s, es)
    /\ delivered es = []
    /\ (debug p = false
        \/ includes IGNORABLE_MESSAGE_TYPES (messageTypeOf data) = false ->
        o = Returned).
Proof.
  intros H. unfold runHandler. rewrite parseMessage_cases.
  destruct (negb (headerTypeOf data =? 0)).
  { do 2 eexists. split; [reflexivity|]. split; [|done].
    rewrite delivered_app, delivered_preLogs. by destruct (debug p). }
  destruct (negb (payloadTypeOf data =? 32)).
  { do 2 eexists. split; [reflexivity|]. split; [|done].
    rewrite delivered_app, delivered_preLogs. by destruct (debug p). }
  destruct (includes IGNORABLE_MESSAGE_TYPES (messageTypeOf data)) eqn:Ei.
  { destruct (debug p) eqn:Ed; do 2 eexists;
      (split; [reflexivity|]); (split; [by rewrite delivered_app, delivered_preLogs|]).
    - intros [?|?]; discriminate.
    - done. }
  destruct H as [H|H]; [discriminate|]. rewrite H.
  do 2 eexists. split; [reflexivity|]. split; [|done].
  rewrite delivered_app, delivered_preLogs. by destruct (debug p).
Qed.

(** C4: in debug mode the frame [26010000123403331dabcd], of the
    ignorable type 33, makes [parseMessage] throw a ReferenceError (the log
    line of that branch reads the undeclared name [fullMesage]); with debug
    mode off the same frame is dropped silently, and a frame of the
    unregistered type 47 is dropped without an exception in debug mode too. *)
Theorem ignorable_frame_throws_in_debug_mode :
  runHandler (parseMessage noPow debugOptions 0 ignorableFrame) initialState
  = (Threw (js "ReferenceError: fullMesage is not defined"), initialState,
     [ ConsoleLog ignorableFrame;
       ConsoleLog (js "Removed CRC from data, leaving: 26010000123403331d") ])
  /\ runHandler (parseMessage noPow (runGateway noOptions) 0 ignorableFrame)
                initialState
     = (Returned, initialState, [])
  /\ outcomeOf (runHandler (parseMessage noPow debugOptions 0 unknownTypeFrame)
                           initialState) = Returned.
Proof. repeat split; vm_compute; reflexivity. Qed.

(** ** The identity guard of the serial handler *)

(** Literals as lists of code units. *)
Ltac js_eval :=
  repeat match goal with
         | |- context [js ?l] =>
             let v := eval cbv in (js l) in change (js l) with v
         end.

Lemma startsWith_gt (data : jsstring) :
  startsWith data (js ">") = true -> exists rest, data = 62%N :: rest.
Proof.
  unfold startsWith. intros H. apply bool_decide_eq_true in H.
  destruct data as [|c rest]; [discriminate|].
  change (c :: take 0 rest = [62%N]) in H. exists rest. congruence.
Qed.

Lemma startsWith_head_ne (c d : N) (s prefix : jsstring) :
  c <> d -> startsWith (c :: s) (d :: prefix) = false.
Proof.
  intros Hne. unfold startsWith. apply bool_decide_eq_false_2.
  simpl. congruence.
Qed.

Lemma truthyString_Some (x : option jsstring) :
  truthyString x = true -> is_Some x.
Proof. destruct x; [eauto|discriminate]. Qed.

(** What the handler does with a [>] record while the guard is closed. *)
Lemma onData_guard_closed
    (Math_pow : number -> number -> number) (p : params) (now : Z)
    (rest : jsstring) (s : state) :
  truthyString (conectricVersion s) && truthyString (contikiVersion s)
    && truthyString (macAddress s) = false ->
  onData Math_pow p now (62%N :: rest) s
  = (Normal tt, s,
     if debug p then [ConsoleLog (js "Unprocessed: " ++ 62%N :: rest)] else []).
Proof.
  intros Hguard. unfold onData, bind, getState.
  assert (G : startsWith (62%N :: rest) (js ">")
              && truthyString (conectricVersion s)
              && truthyString (contikiVersion s)
              && truthyString (macAddress s) = false).
  { destruct (startsWith (62%N :: rest) (js ">")); [exact Hguard|reflexivity]. }
  rewrite G. js_eval.
  rewrite (startsWith_head_ne 62 77) by discriminate.
  destruct (decide (62%N :: rest = js "DP:Ok")) as [E|_]; [discriminate E|].
  destruct (decide (62%N :: rest = js "SS:Ok")) as [E|_]; [discriminate E|].
  assert (L : toLowerCase (62%N :: rest) = 62%N :: toLowerCase rest) by reflexivity.
  rewrite L.
  rewrite !(startsWith_head_ne 62 118) by discriminate.
  assert (K : includes KNOWN_COMMANDS (62%N :: rest) = false).
  { unfold includes. apply bool_decide_eq_false_2.
    unfold KNOWN_COMMANDS. js_eval. rewrite !elem_of_cons, elem_of_nil.
    intros [E|[E|[E|[E|[]]]]]; discriminate E. }
  rewrite K. cbn [negb when].
  unfold console_log, perform, ret. destruct (debug p); reflexivity.
Qed.

(** C1: a record that begins with [>] reaches [parseMessage] only when
    the MAC address and both version strings are set.  While one of them is
    unset the handler returns with the state unchanged, without a callback
    and without decoding (at most the debug line for an unprocessed record
    is logged); whenever a sensor message is delivered all three are set;
    and once all three are set and non-empty the record, without its [>],
    is what [parseMessage] is given. *)
Theorem frames_wait_for_identity
    (Math_pow : number -> number -> number) (p : params) (now : Z)
    (data : jsstring) (s : state) :
  startsWith data (js ">") = true ->
  (macAddress s = None \/ contikiVersion s = None \/ conectricVersion s = None ->
   exists es,
     runHandler (onData Math_pow p now data) s = (Returned, s, es)
     /\ delivered es = []
     /\ (es = [] \/ es = [ConsoleLog (js "Unprocessed: " ++ data)]))
  /\ (delivered (effectsOf (runHandler (onData Math_pow p now data) s)) <> [] ->
      is_Some (macAddress s) /\ is_Some (contikiVersion s)
      /\ is_Some (conectricVersion s))
  /\ (truthyString (conectricVersion s) = true ->
      truthyString (contikiVersion s) = true ->
      truthyString (macAddress s) = true ->
      onData Math_pow p now data s
      = parseMessage Math_pow p now (substring_from data 1) s).
Proof.
  intros Hgt. destruct (startsWith_gt data Hgt) as [rest ->].
  assert (Closed :
    truthyString (conectricVersion s) && truthyString (contikiVersion s)
      && truthyString (macAddress s) = false ->
    exists es,
      runHandler (onData Math_pow p now (62%N :: rest)) s = (Returned, s, es)
      /\ delivered es = []
      /\ (es = [] \/ es = [ConsoleLog (js "Unprocessed: " ++ 62%N :: rest)])).
  { intros Hc. unfold runHandler. rewrite (onData_guard_closed _ _ _ _ _ Hc).
    eexists. split; [reflexivity|]. destruct (debug p); auto. }
  split; [|split].
  - intros Hunset. apply Closed.
    destruct Hunset as [H|[H|H]]; rewrite H; cbn [truthyString];
      rewrite ?andb_false_r; reflexivity.
  - intros Hd.
    destruct (truthyString (conectricVersion s)) eqn:E1;
      destruct (truthyString (contikiVersion s)) eqn:E2;
      destruct (truthyString (macAddress s)) eqn:E3;
      try (destruct (Closed eq_refl) as (es & Hr & Hnil & _);
           unfold effectsOf in Hd; rewrite Hr in Hd; contradiction).
    auto using truthyString_Some.
  - intros H1 H2 H3. unfold onData, bind, getState.
    rewrite Hgt, H1, H2, H3. cbn [andb].
    destruct (parseMessage Math_pow p now (substring_from (62%N :: rest) 1) s)
      as [[[[]| |e] s'] es]; reflexivity.
Qed.

Lemma frames_wait_for_identity_witness :
  startsWith tempHumidityFrame (js ">") = true
  /\ (exists es,
        runHandler (onData noPow debugOptions 2000 tempHumidityFrame)
                   initialState = (Returned, initialState, es)
        /\ delivered es = []
        /\ (es = [] \/ es = [ConsoleLog (js "Unprocessed: " ++ tempHumidityFrame)]))
  /\ (is_Some (macAddress readyState) /\ is_Some (contikiVersion readyState)
      /\ is_Some (conectricVersion readyState))
  /\ onData noPow debugOptions 2000 tempHumidityFrame readyState
     = parseMessage noPow debugOptions 2000 tempHumidityData readyState.
Proof.
  assert (H : startsWith tempHumidityFrame (js ">") = true) by reflexivity.
  split; [exact H|].
  pose proof (frames_wait_for_identity noPow debugOptions 2000
                tempHumidityFrame initialState H) as [Hclosed _].
  pose proof (frames_wait_for_identity noPow debugOptions 2000
                tempHumidityFrame readyState H) as (_ & Hset & Hopen).
  split; [exact (Hclosed (or_introl eq_refl))|].
  split.
  - apply Hset. vm_compute. discriminate.
  - exact (Hopen eq_refl eq_refl eq_refl).
Defined.

(** ** The accepted path of the frame parser *)

Lemma registry_names_nonempty (key name : jsstring) :
  lookupType MESSAGE_TYPES key = Some name -> exists c name', name = c :: name'.
Proof.
  unfold MESSAGE_TYPES. cbn [lookupType].
  repeat (destruct (decide _) as [_|_]; [intros [= <-]; eexists _, _; reflexivity|]).
  discriminate.
Qed.

Lemma checkCache_cases (p : params) (now : Z) (data sourceAddr : jsstring)
    (sequenceNumber : option Z) (messageData : jsstring) (s : state) :
  checkCache p now data sourceAddr sequenceNumber messageData s =
  if truthy (deDuplicateBursts p) then
    match store s !! (sourceAddr ++ toString sequenceNumber ++ messageData) with
    | Some (true, _) =>
        (Return, s,
         if debug p then
           [ConsoleLog (js "Dropping message " ++ quote ++ data ++ quote
                        ++ js ", already processed message from this burst.")]
         else [])
    | _ =>
        (Normal tt,
         withStore s (<[sourceAddr ++ toString sequenceNumber ++ messageData
                        := (true, now + cache.ttl * 1000)]> (store s)),
         [])
    end
  else (Normal tt, s, []).
Proof.
  unfold checkCache, when. destruct (truthy (deDuplicateBursts p)); [|reflexivity].
  unfold cache.get, cache.set.
  unfold bind, getState, putState, ret, return_, when, console_log, perform.
  cbv beta iota zeta.
  destruct (store s !! _) as [[[] e]|];
    cbn [fmap option_fmap option_map fst truthy negb app]; try reflexivity.
  destruct (debug p); reflexivity.
Qed.

Lemma deliver_without_payload Math_pow (p : params) (now : Z)
    (fullMessage data messageType messageTypeString sourceAddr : jsstring)
    (seq : option Z) (battery : number) (messageData : jsstring) :
  truthy (sendDecodedPayload p) = false ->
  exists es m,
    (forall s, deliver Math_pow p now fullMessage data messageType
                       messageTypeString sourceAddr seq battery messageData s
               = (Normal tt, s, es))
    /\ delivered es = [m]
    /\ payload m = None /\ type m = messageTypeString
    /\ sensorId m = sourceAddr /\ sequenceNumber m = seq.
Proof.
  intros H. unfold deliver, finishMessage. cbv zeta. rewrite H. cbn [negb].
  unfold bind, when, ret, console_log, perform.
  destruct (isBroadcastMessageType messageType), (debug p),
    (truthy (sendHopData p)), (truthy (sendRawData p));
    do 2 eexists; (split; [intros s; reflexivity|]); repeat split.
Qed.

Lemma headerAccepted_tests (data : jsstring) :
  headerAccepted data ->
  negb (headerTypeOf data =? 0) = false /\ negb (payloadTypeOf data =? 32) = false.
Proof. intros [-> ->]. split; reflexivity. Qed.

(** The result of [parseMessage] on a frame whose header and type are
    accepted. *)
Lemma parseMessage_accepted Math_pow p now data s name :
  headerAccepted data ->
  includes IGNORABLE_MESSAGE_TYPES (messageTypeOf data) = false ->
  lookupType MESSAGE_TYPES (messageTypeOf data) = Some name ->
  parseMessage Math_pow p now data s
  = prepend (preLogs p data) (acceptedTail Math_pow p now data name s).
Proof.
  intros Hh Hi Hl. rewrite parseMessage_cases.
  destruct (headerAccepted_tests data Hh) as [-> ->]. rewrite Hi, Hl.
  destruct (registry_names_nonempty _ _ Hl) as (c & name' & ->). reflexivity.
Qed.

(** ** Delivery without the decoded payload *)

(** C10: with [sendDecodedPayload] off, a frame that passes the header
    check, the registry and the de-duplication check is delivered exactly
    once, with no [payload] field and under the type name of the registry,
    whatever the other options are: the per-type filters (boot, status,
    rs485Config length) and the Status re-typing are not applied. *)
Theorem no_payload_bypasses_filters
    (Math_pow : number -> number -> number) (p : params) (now : Z)
    (data : jsstring) (s : state) (name : jsstring) :
  truthy (sendDecodedPayload p) = false ->
  headerAccepted data ->
  includes IGNORABLE_MESSAGE_TYPES (messageTypeOf data) = false ->
  lookupType MESSAGE_TYPES (messageTypeOf data) = Some name ->
  truthy (deDuplicateBursts p) = false \/ store s !! cacheKeyOf data = None ->
  exists s' es m,
    runHandler (parseMessage Math_pow p now data) s = (Returned, s', es)
    /\ delivered es = [m]
    /\ payload m = None /\ type m = name
    /\ sensorId m = sourceAddrOf data
    /\ sequenceNumber m = sequenceNumberOf data.
Proof.
  intros Hp Hh Hi Hl Hc.
  unfold runHandler. rewrite (parseMessage_accepted _ _ _ _ _ _ Hh Hi Hl).
  unfold acceptedTail, bind. rewrite checkCache_cases.
  destruct (deliver_without_payload Math_pow p now data (stripCRC data)
              (messageTypeOf data) name (sourceAddrOf data)
              (sequenceNumberOf data) (batteryOf data) (messageDataOf data) Hp)
    as (es & m & Hd & Hm & Hrest).
  assert (Hes : delivered (preLogs p data ++ [] ++ es) = [m]).
  { by rewrite !delivered_app, delivered_preLogs, Hm. }
  destruct (truthy (deDuplicateBursts p)).
  - destruct Hc as [Hc|Hc]; [discriminate|].
    unfold cacheKeyOf in Hc. rewrite Hc, Hd. cbn [prepend].
    eexists _, _, m. split; [reflexivity|]. split; [exact Hes|exact Hrest].
  - rewrite Hd. cbn [prepend].
    eexists _, _, m. split; [reflexivity|]. split; [exact Hes|exact Hrest].
Qed.

Lemma no_payload_bypasses_filters_witness :
  truthy (sendDecodedPayload filtersOffNoPayload) = false
  /\ headerAccepted bootFrame
  /\ exists s' es m,
       runHandler (parseMessage noPow filtersOffNoPayload 0 bootFrame)
                  initialState = (Returned, s', es)
       /\ delivered es = [m]
       /\ payload m = None /\ type m = js "boot"
       /\ sensorId m = sourceAddrOf bootFrame
       /\ sequenceNumber m = sequenceNumberOf bootFrame.
Proof.
  assert (H1 : truthy (sendDecodedPayload filtersOffNoPayload) = false)
    by reflexivity.
  assert (H2 : headerAccepted bootFrame) by (split; reflexivity).
  split; [exact H1|]. split; [exact H2|].
  apply (no_payload_bypasses_filters noPow filtersOffNoPayload 0 bootFrame
           initialState (js "boot") H1 H2).
  - reflexivity.
  - reflexivity.
  - right. reflexivity.
Defined.

(** The three filters, on frames they would otherwise stop. *)
Example no_payload_examples :
  map type (delivered (effectsOf
    (runHandler (parseMessage noPow filtersOffNoPayload 0 bootFrame)
                initialState))) = [js "boot"]
  /\ map type (delivered (effectsOf
       (runHandler (parseMessage noPow filtersOffNoPayload 0 motionStatusFrame)
                   initialState))) = [js "motion"]
  /\ map type (delivered (effectsOf
       (runHandler (parseMessage noPow filtersOffNoPayload 0 shortConfigFrame)
                   initialState))) = [js "rs485Config"]
  /\ delivered (effectsOf
       (runHandler (parseMessage noPow filtersOff 0 bootFrame) initialState))
     = []
  /\ delivered (effectsOf
       (runHandler (parseMessage noPow filtersOff 0 motionStatusFrame)
                   initialState)) = []
  /\ delivered (effectsOf
       (runHandler (parseMessage noPow filtersOff 0 shortConfigFrame)
                   initialState)) = [].
Proof. repeat split; vm_compute; reflexivity. Qed.

(** ** Boot messages *)

Lemma decodePayload_boot Math_pow p messageType battery messageData data message :
  decodePayload Math_pow p messageType (js "boot") battery messageData data message
  = decode_boot p battery messageData data message.
Proof.
  unfold decodePayload.
  repeat (destruct (decide _) as [E|_]; [vm_compute in E; discriminate E|]).
  destruct (decide _) as [_|N]; [reflexivity|by destruct N].
Qed.

Lemma deliver_boot Math_pow (p : params) (now : Z)
    (fullMessage data messageType sourceAddr : jsstring)
    (seq : option Z) (battery : number) (messageData : jsstring) :
  truthy (sendDecodedPayload p) = true ->
  if truthy (sendBootMessages p) then
    exists es m,
      (forall s, deliver Math_pow p now fullMessage data messageType
                         (js "boot") sourceAddr seq battery messageData s
                 = (Normal tt, s, es))
      /\ delivered es = [m]
      /\ type m = js "boot"
      /\ getField (payloadOf m) "resetCause"
         = Some (VString (resetCauseOf messageData))
  else
    exists es,
      (forall s, deliver Math_pow p now fullMessage data messageType
                         (js "boot") sourceAddr seq battery messageData s
                 = (Return, s, es))
      /\ delivered es = [].
Proof.
  intros H. unfold deliver, finishMessage. cbv zeta. rewrite H. cbn [negb].
  unfold resetCauseOf.
  destruct (truthy (sendBootMessages p)) eqn:Eb.
  - destruct (isBroadcastMessageType messageType), (debug p) eqn:Ed,
      (truthy (sendHopData p)), (truthy (sendRawData p));
    unfold bind, when, ret, console_log, perform; cbv beta iota zeta;
    rewrite decodePayload_boot; unfold decode_boot; rewrite Eb;
    unfold bind, when, ret, console_log, console_error, perform; rewrite ?Ed;
    repeat (destruct (decide _));
    do 2 eexists; (split; [intros s; reflexivity|]); repeat split.
  - destruct (isBroadcastMessageType messageType), (debug p) eqn:Ed,
      (truthy (sendHopData p)), (truthy (sendRawData p));
    unfold bind, when, ret, console_log, perform; cbv beta iota zeta;
    rewrite decodePayload_boot; unfold decode_boot; rewrite Eb;
    eexists; (split; [intros s; reflexivity|]); reflexivity.
Qed.

Lemma headerAccepted_dec (data : jsstring) :
  {headerAccepted data} + {~ headerAccepted data}.
Proof.
  unfold headerAccepted.
  destruct (decide (headerTypeOf data = 0)), (decide (payloadTypeOf data = 32));
    [left|right..]; tauto.
Qed.

Lemma rejected_header_cases (data : jsstring) :
  ~ headerAccepted data ->
  negb (headerTypeOf data =? 0) = true
  \/ (negb (headerTypeOf data =? 0) = false
      /\ negb (payloadTypeOf data =? 32) = true).
Proof.
  unfold headerAccepted. intros H.
  destruct (headerTypeOf data =? 0) eqn:E1; [|by left].
  destruct (payloadTypeOf data =? 32) eqn:E2; [|by right].
  apply Z.eqb_eq in E1, E2. tauto.
Qed.

(** A frame with a rejected header delivers nothing. *)
Lemma rejected_header_result Math_pow p now data s :
  ~ headerAccepted data ->
  exists es,
    parseMessage Math_pow p now data s = (Return, s, es) /\ delivered es = [].
Proof.
  intros H. rewrite parseMessage_cases.
  destruct (rejected_header_cases data H) as [->|[-> ->]];
    (eexists; split; [reflexivity|]);
    rewrite delivered_app, delivered_preLogs; by destruct (debug p).
Qed.

(** C7 (amended): with [sendDecodedPayload] on, a frame of type code 60
    reaches the callback only when [sendBootMessages] is on, and a delivered
    boot message has the reset cause powerOn, externalReset or watchdogReset
    for message data 00, 01 or 02 and unknown for anything else; with
    [sendBootMessages] on, an accepted header and a fingerprint not in the
    cache, the frame is delivered. *)
Theorem boot_messages_filtered
    (Math_pow : number -> number -> number) (p : params) (now : Z)
    (data : jsstring) (s : state) :
  truthy (sendDecodedPayload p) = true ->
  messageTypeOf data = js "60" ->
  (forall m,
      m ∈ delivered (effectsOf (runHandler (parseMessage Math_pow p now data) s)) ->
      truthy (sendBootMessages p) = true
      /\ type m = js "boot"
      /\ getField (payloadOf m) "resetCause"
         = Some (VString (resetCauseOf (messageDataOf data))))
  /\ (truthy (sendBootMessages p) = true ->
      headerAccepted data ->
      truthy (deDuplicateBursts p) = false \/ store s !! cacheKeyOf data = None ->
      exists m,
        delivered (effectsOf (runHandler (parseMessage Math_pow p now data) s))
        = [m]).
Proof.
  intros Hp Ht.
  assert (Hi : includes IGNORABLE_MESSAGE_TYPES (messageTypeOf data) = false)
    by (rewrite Ht; reflexivity).
  assert (Hl : lookupType MESSAGE_TYPES (messageTypeOf data) = Some (js "boot"))
    by (rewrite Ht; reflexivity).
  pose proof (deliver_boot Math_pow p now data (stripCRC data)
                (messageTypeOf data) (sourceAddrOf data) (sequenceNumberOf data)
                (batteryOf data) (messageDataOf data) Hp) as Hd.
  assert (Hrun : forall r : completion unit * state * list effect,
             effectsOf (match r with
                        | (Normal _, s', es) => (Returned, s', es)
                        | (Return, s', es) => (Returned, s', es)
                        | (Throw e, s', es) => (Threw e, s', es)
                        end) = r.2).
  { intros [[[[]| |e] s'] es]; reflexivity. }
  unfold runHandler. rewrite Hrun.
  destruct (headerAccepted_dec data) as [Hh|Hh].
  2:{ destruct (rejected_header_result Math_pow p now data s Hh) as (es & -> & Hes).
      cbn [snd]. rewrite Hes. split; [|tauto].
      intros m Hm. by apply elem_of_nil in Hm. }
  rewrite (parseMessage_accepted _ _ _ _ _ _ Hh Hi Hl).
  rewrite delivered_prepend, delivered_preLogs. cbn [app].
  unfold acceptedTail, bind. rewrite checkCache_cases.
  destruct (truthy (sendBootMessages p)).
  - destruct Hd as (es & m0 & Hd & Hes & Hty & Hrc).
    assert (Hin : forall m, m ∈ [m0] ->
              true = true /\ type m = js "boot"
              /\ getField (payloadOf m) "resetCause"
                 = Some (VString (resetCauseOf (messageDataOf data)))).
    { intros m Hm. apply list_elem_of_singleton in Hm. by subst m. }
    destruct (truthy (deDuplicateBursts p)).
    + destruct (store s !! _) as [[[] e]|] eqn:Ec; rewrite ?Hd; cbn [snd app];
        rewrite ?Hes.
      * split.
        -- intros m Hm. exfalso. destruct (debug p); by apply elem_of_nil in Hm.
        -- intros _ _ [?|Hc]; [discriminate|].
           unfold cacheKeyOf in Hc. rewrite Hc in Ec. discriminate.
      * split; [exact Hin|eauto].
      * split; [exact Hin|eauto].
    + rewrite Hd. cbn [snd app]. rewrite Hes. split; [exact Hin|eauto].
  - destruct Hd as (es & Hd & Hes).
    split; [|discriminate].
    intros m Hm. exfalso.
    destruct (truthy (deDuplicateBursts p)).
    + destruct (store s !! _) as [[[] e]|]; rewrite ?Hd in Hm; cbn [snd app] in Hm;
        rewrite ?Hes in Hm; try (by apply elem_of_nil in Hm).
      destruct (debug p); by apply elem_of_nil in Hm.
    + rewrite Hd in Hm. cbn [snd app] in Hm. rewrite Hes in Hm.
      by apply elem_of_nil in Hm.
Qed.

Lemma boot_messages_filtered_witness :
  truthy (sendDecodedPayload debugOptions) = true
  /\ messageTypeOf bootFrame = js "60"
  /\ exists m,
       delivered (effectsOf (runHandler (parseMessage noPow debugOptions 0 bootFrame)
                                        initialState)) = [m]
       /\ truthy (sendBootMessages debugOptions) = true
       /\ type m = js "boot"
       /\ getField (payloadOf m) "resetCause" = Some (VString (js "powerOn")).
Proof.
  assert (H1 : truthy (sendDecodedPayload debugOptions) = true) by reflexivity.
  assert (H2 : messageTypeOf bootFrame = js "60") by reflexivity.
  split; [exact H1|]. split; [exact H2|].
  destruct (boot_messages_filtered noPow debugOptions 0 bootFrame initialState
              H1 H2) as [Honly Hdel].
  destruct Hdel as [m Hm].
  - reflexivity.
  - split; reflexivity.
  - right. reflexivity.
  - exists m. split; [exact Hm|].
    apply Honly. rewrite Hm. apply list_elem_of_singleton. reflexivity.
Defined.

(** C7, as stated, fails: with [sendDecodedPayload] off a boot frame is
    delivered although [sendBootMessages] is off, and it has no payload. *)
Lemma boot_delivered_with_boot_messages_off :
  truthy (sendBootMessages filtersOffNoPayload) = false
  /\ messageTypeOf bootFrame = js "60"
  /\ delivered (effectsOf (runHandler
       (parseMessage noPow filtersOffNoPayload 0 bootFrame) initialState))
     = [ {| type := js "boot"; payload := None; sensorId := js "1234";
            sequenceNumber := Some 1; timestamp := 0;
            numHops := None; maxHops := None; rawData := None |} ].
Proof. repeat split. Qed.

(** ** Temperature and humidity *)




(** The exact values of the examples are not an artefact of the rational
    model: in double arithmetic the unrounded temperature for raw 8000 lies
    strictly between 41.005 and 41.015, and the unrounded humidity for raw
    4000 is 25.25. *)
Lemma doubles_agree_on_examples :
  PrimFloat.ltb 41.005%float (celsiusDouble 32768%float) = true
  /\ PrimFloat.ltb (celsiusDouble 32768%float) 41.015%float = true
  /\ PrimFloat.eqb (humidityDouble 16384%float) 25.25%float = true.
Proof. repeat split; vm_compute; reflexivity. Qed.

(** ** The end-to-end example *)

(** C6, as stated, fails: after the bring-up records the frame record of
    the example has header byte 30, which gives header length 16 and not 0;
    its type field lies beyond the end of the record, and no message is
    produced. *)
Lemma example_frame_not_delivered :
  headerLengthOf (substring_from exampleFrame 1) = 16
  /\ messageTypeOf (substring_from exampleFrame 1) = []
  /\ delivered (effectsOf (run noPow (runGateway noOptions)
                               (bringUp ++ [SerialData 2000 exampleFrame])
                               initialState)) = [].
Proof. repeat split. Qed.

(** C6 (amended): the bring-up records set the three identity fields; the
    frame record of the example is then handed to the parser, read with
    header length 16 and dropped for its unknown (empty) type; a tempHumidity
    frame laid out as the parser reads it (header byte 26, type code 30 after
    the six header bytes) produces exactly one tempHumidity message with its
    sensorId and the computed temperature and humidity; and the same frame
    produces nothing while fewer than the three identity records have been
    consumed. *)
Theorem end_to_end_tempHumidity (Math_pow : number -> number -> number) :
  let p := runGateway noOptions in
  let ready := stateOf (run Math_pow p bringUp initialState) in
  (macAddress ready = Some (js "1234")
   /\ contikiVersion ready = Some (js ".0")
   /\ conectricVersion ready = Some (js "2.0"))
  /\ (headerLengthOf (substring_from exampleFrame 1) = 16
      /\ headerAccepted (substring_from exampleFrame 1)
      /\ delivered (effectsOf (run Math_pow p
                                   (bringUp ++ [SerialData 2000 exampleFrame])
                                   initialState)) = [])
  /\ delivered (effectsOf (run Math_pow p
                               (bringUp ++ [SerialData 2000 tempHumidityFrame])
                               initialState)) = [tempHumidityMessage]
  /\ Forall (fun n : nat =>
                delivered (effectsOf (run Math_pow p
                                          (take n bringUp
                                           ++ [SerialData 2000 tempHumidityFrame])
                                          initialState)) = [])
            [0; 1; 2]%nat.
Proof.
  cbv zeta. split; [|split; [|split]].
  - repeat split.
  - repeat split.
  - vm_compute. reflexivity.
  - repeat constructor.
Qed.

(** ** Records that are too short *)











(** ** The decoding does not depend on the clock *)

Lemma timeless_bind (f g : sensorMessage -> M sensorMessage) :
  timeless f -> timeless g -> timeless (fun m => bind (f m) g).
Proof.
  intros Hf Hg t m s. unfold bind. rewrite Hf.
  destruct (f m s) as [[[a| |e] s1] es1]; cbn [retimeResult]; [|done..].
  rewrite Hg. destruct (g a s1) as [[c s2] es2]. reflexivity.
Qed.

Ltac timeless_cases :=
  intros t m s;
  unfold bind, when, ret, return_, console_log, console_error, perform;
  cbv beta iota zeta;
  repeat match goal with
         | |- context [if ?b then _ else _] => destruct b
         end;
  reflexivity.

Section DecodersAreTimeless.

Variable Math_pow : number -> number -> number.
Variable p : params.
Variables (battery : number) (messageData data : jsstring).

Lemma timeless_tempHumidity : timeless (decode_tempHumidity p battery messageData).
Proof. unfold decode_tempHumidity. timeless_cases. Qed.

Lemma timeless_tempHumidityAdc :
  timeless (decode_tempHumidityAdc p battery messageData).
Proof. unfold decode_tempHumidityAdc. timeless_cases. Qed.

Lemma timeless_tempHumidityLight :
  timeless (decode_tempHumidityLight Math_pow p battery messageData).
Proof. unfold decode_tempHumidityLight. timeless_cases. Qed.

Lemma timeless_moisture : timeless (decode_moisture p battery messageData).
Proof. unfold decode_moisture. timeless_cases. Qed.

Lemma timeless_motion : timeless (decode_motion p battery messageData).
Proof. unfold decode_motion. timeless_cases. Qed.

Lemma timeless_switch : timeless (decode_switch p battery messageData).
Proof. unfold decode_switch. timeless_cases. Qed.

Lemma timeless_boot : timeless (decode_boot p battery messageData data).
Proof. unfold decode_boot. timeless_cases. Qed.

Lemma timeless_rs485Config : timeless (decode_rs485Config p messageData).
Proof. unfold decode_rs485Config. timeless_cases. Qed.

Lemma timeless_decodePayload (messageType messageTypeString : jsstring) :
  timeless (decodePayload Math_pow p messageType messageTypeString battery
                          messageData data).
Proof.
  unfold decodePayload.
  repeat (destruct (decide _) as [_|_];
          [solve [ apply timeless_tempHumidity | apply timeless_tempHumidityAdc
                 | apply timeless_tempHumidityLight | apply timeless_moisture
                 | apply timeless_motion | apply timeless_switch
                 | apply timeless_boot | apply timeless_rs485Config
                 | timeless_cases ]|]).
  timeless_cases.
Qed.

Lemma timeless_finishMessage
    (fullMessage messageType messageTypeString : jsstring) :
  timeless (finishMessage Math_pow p fullMessage data messageType
                          messageTypeString battery messageData).
Proof.
  unfold finishMessage. apply timeless_bind.
  - timeless_cases.
  - intros t m s. cbv zeta.
    destruct (negb (truthy (sendDecodedPayload p))), (truthy (sendRawData p));
      try reflexivity.
    all: match goal with
         | |- _ = retimeResult ?t0 (decodePayload _ _ _ _ _ _ _ ?m0 ?s0) =>
             exact (timeless_decodePayload messageType messageTypeString t0 m0 s0)
         end.
Qed.

End DecodersAreTimeless.

(** [deliver] does the same whatever the state and the clock are, up to the
    timestamp of the message it hands to the callback. *)
Lemma deliver_uniform Math_pow (p : params)
    (fullMessage data messageType messageTypeString sourceAddr : jsstring)
    (seq : option Z) (battery : number) (messageData : jsstring) :
  exists (c : completion sensorMessage) (logs : list effect),
    delivered logs = []
    /\ (forall e, c <> Throw e)
    /\ forall now s,
         deliver Math_pow p now fullMessage data messageType messageTypeString
                 sourceAddr seq battery messageData s
         = match c with
           | Normal m =>
               (Normal tt, s,
                logs ++ [OnSensorMessage (retime (timestampAt p now) m)])
           | Return => (Return, s, logs)
           | Throw e => (Throw e, s, logs)
           end.
Proof.
  set (m0 := {| type := messageTypeString; payload := Some [];
                sensorId := sourceAddr; sequenceNumber := seq;
                timestamp := 0; numHops := None; maxHops := None;
                rawData := None |}).
  destruct (tame_finishMessage Math_pow p fullMessage data messageType
              messageTypeString battery messageData m0)
    as (c & logs & H & Hr & Hd).
  exists c, logs. split; [exact Hd|]. split; [exact Hr|].
  intros now s. unfold deliver. cbv zeta.
  change {| type := messageTypeString; payload := Some [];
            sensorId := sourceAddr; sequenceNumber := seq;
            timestamp := timestampAt p now; numHops := None; maxHops := None;
            rawData := None |}
    with (retime (timestampAt p now) m0).
  unfold bind. rewrite timeless_finishMessage, H.
  destruct c; reflexivity.
Qed.

(** What [parseMessage] does to the state: nothing, or one insertion into
    the cache, of the fingerprint of the frame, when it is not held yet. *)
Lemma parseMessage_state Math_pow p now data s :
  exists r s' es,
    parseMessage Math_pow p now data s = (r, s', es)
    /\ (s' = s
        \/ (s' = withStore s (<[cacheKeyOf data := (true, now + cache.ttl * 1000)]>
                               (store s))
            /\ forall e, store s !! cacheKeyOf data <> Some (true, e))).
Proof.
  rewrite parseMessage_cases.
  destruct (negb (headerTypeOf data =? 0)); [do 3 eexists; split; [reflexivity|by left]|].
  destruct (negb (payloadTypeOf data =? 32)); [do 3 eexists; split; [reflexivity|by left]|].
  destruct (includes IGNORABLE_MESSAGE_TYPES (messageTypeOf data)).
  { destruct (debug p); do 3 eexists; (split; [reflexivity|by left]). }
  destruct (lookupType MESSAGE_TYPES (messageTypeOf data)) as [[|c name]|];
    [do 3 eexists; split; [reflexivity|by left]| |
     do 3 eexists; split; [reflexivity|by left]].
  unfold acceptedTail, bind. rewrite checkCache_cases.
  destruct (deliver_uniform Math_pow p data (stripCRC data) (messageTypeOf data)
              (c :: name) (sourceAddrOf data) (sequenceNumberOf data)
              (batteryOf data) (messageDataOf data))
    as (r & logs & _ & _ & Hd).
  fold (cacheKeyOf data).
  destruct (truthy (deDuplicateBursts p)).
  - destruct (store s !! cacheKeyOf data) as [[[] e]|] eqn:E; rewrite ?Hd.
    + do 3 eexists; split; [reflexivity|by left].
    + destruct r; do 3 eexists; (split; [reflexivity|]); right; (split; [reflexivity|]);
        intros e'; congruence.
    + destruct r; do 3 eexists; (split; [reflexivity|]); right; (split; [reflexivity|]);
        intros e'; congruence.
  - rewrite Hd. destruct r; do 3 eexists; (split; [reflexivity|by left]).
Qed.

(** ** De-duplication of bursts *)

Lemma onData_store Math_pow p now data s key e :
  store s !! key = Some (true, e) ->
  store (stateOf (runHandler (onData Math_pow p now data) s)) !! key
  = Some (true, e).
Proof.
  intros Hk. unfold runHandler, onData, bind, getState.
  destruct (_ && _ && _ && _).
  - destruct (parseMessage_state Math_pow p now (substring_from data 1) s)
      as (r & s' & es & -> & Hs).
    assert (Hs' : store s' !! key = Some (true, e)).
    { destruct Hs as [->|[-> Hfresh]]; [exact Hk|].
      cbn [store withStore].
      destruct (decide (cacheKeyOf (substring_from data 1) = key)) as [<-|Hne].
      - by destruct (Hfresh e).
      - by rewrite lookup_insert_ne. }
    destruct r as [[]| |?]; exact Hs'.
  - destruct (startsWith data (js "MR:")); [exact Hk|].
    destruct (decide (data = js "DP:Ok")); [exact Hk|].
    destruct (decide (data = js "SS:Ok")).
    { unfold when, console_log, perform, ret. destruct (onGatewayReady p); exact Hk. }
    destruct (startsWith (toLowerCase data) (js "ver:contiki")); [exact Hk|].
    destruct (startsWith (toLowerCase data) (js "ver:conectric-v")); [exact Hk|].
    unfold when, console_log, perform, ret.
    destruct (negb _); [destruct (debug p)|]; exact Hk.
Qed.

(** An entry of the cache outlives every event but a cleanup pass that
    runs after its expiry. *)
Lemma handler_keeps_entry Math_pow p ev s key e :
  store s !! key = Some (true, e) ->
  match ev with CacheTimer t => t <= e | _ => True end ->
  store (stateOf (runHandler (handler Math_pow p ev) s)) !! key = Some (true, e).
Proof.
  intros Hk Hev. destruct ev as [now data|now|]; cbn [handler].
  - by apply onData_store.
  - unfold runHandler, cache.cleanExpired, bind, getState, putState.
    cbn [stateOf fst snd store withStore].
    apply map_lookup_filter_Some. split; [exact Hk|exact Hev].
  - exact Hk.
Qed.

Lemma run_keeps_entry Math_pow p evs s key e :
  store s !! key = Some (true, e) ->
  sweepsUpTo e evs ->
  store (stateOf (run Math_pow p evs s)) !! key = Some (true, e).
Proof.
  revert s. induction evs as [|ev evs IH]; intros s Hk Hevs; [exact Hk|].
  apply Forall_cons in Hevs as [Hev Hevs].
  pose proof (handler_keeps_entry Math_pow p ev s key e Hk Hev) as H1.
  cbn [run].
  destruct (runHandler (handler Math_pow p ev) s) as [[[|err] s'] es]; [|exact H1].
  specialize (IH s' H1 Hevs).
  destruct (run Math_pow p evs s') as [[o s''] es']. exact IH.
Qed.

(** A cleanup pass after the expiry of an entry removes it, and cleanup
    passes never bring an entry back. *)
Lemma sweeps_keep_absent Math_pow p evs s key :
  store s !! key = None ->
  onlySweeps evs ->
  outcomeOf (run Math_pow p evs s) = Returned
  /\ store (stateOf (run Math_pow p evs s)) !! key = None
  /\ delivered (effectsOf (run Math_pow p evs s)) = [].
Proof.
  revert s. induction evs as [|ev evs IH]; intros s Hk Hevs; [done|].
  apply Forall_cons in Hevs as [Hev Hevs].
  destruct ev as [| now |]; [done| |done].
  cbn [run handler]. unfold runHandler, cache.cleanExpired, bind, getState, putState.
  cbv beta iota zeta.
  set (s' := withStore s _).
  assert (H1 : store s' !! key = None).
  { subst s'. cbn [store withStore]. apply map_lookup_filter_None. by left. }
  destruct (IH s' H1 Hevs) as (Ho & Hs & Hd).
  destruct (run Math_pow p evs s') as [[o s''] es']. 
  unfold outcomeOf, stateOf, effectsOf in *. cbn [fst snd] in *. by rewrite app_nil_l.
Qed.

Lemma sweep_removes_expired Math_pow p now s key v e :
  store s !! key = Some (v, e) ->
  e < now ->
  runHandler (handler Math_pow p (CacheTimer now)) s
  = (Returned, withStore s (filter (fun kv => now <= kv.2.2) (store s)), [])
  /\ filter (fun kv : jsstring * (bool * Z) => now <= kv.2.2) (store s) !! key = None.
Proof.
  intros Hk He. split; [reflexivity|].
  apply map_lookup_filter_None. right. intros v' Hv'.
  rewrite Hk in Hv'. injection Hv' as <-. cbn. lia.
Qed.

Lemma retime_retime (t t' : Z) (m : sensorMessage) :
  retime t (retime t' m) = retime t m.
Proof. reflexivity. Qed.

(** An accepted frame with de-duplication on: it is dropped when the cache
    holds its fingerprint; otherwise the fingerprint is inserted, to expire
    after [cache.ttl] seconds, and the frame goes on to the decoder, which
    may veto it ([decoded = None]) or hand a message to the callback. *)
Lemma accepted_frame_run Math_pow p data name :
  headerAccepted data ->
  includes IGNORABLE_MESSAGE_TYPES (messageTypeOf data) = false ->
  lookupType MESSAGE_TYPES (messageTypeOf data) = Some name ->
  truthy (deDuplicateBursts p) = true ->
  exists (decoded : option sensorMessage) (logs dropLogs : list effect),
    delivered logs = [] /\ delivered dropLogs = []
    /\ forall now s,
         runHandler (parseMessage Math_pow p now data) s
         = match store s !! cacheKeyOf data with
           | Some (true, _) => (Returned, s, dropLogs)
           | _ =>
               (Returned,
                withStore s (<[cacheKeyOf data := (true, now + cache.ttl * 1000)]>
                               (store s)),
                logs ++ match decoded with
                        | Some m => [OnSensorMessage (retime (timestampAt p now) m)]
                        | None => []
                        end)
           end.
Proof.
  intros Hh Hi Hl Hd.
  destruct (deliver_uniform Math_pow p data (stripCRC data) (messageTypeOf data)
              name (sourceAddrOf data) (sequenceNumberOf data)
              (batteryOf data) (messageDataOf data))
    as (c & logs & Hlogs & Hc & Hrun).
  exists (match c with Normal m => Some m | _ => None end),
         (preLogs p data ++ logs),
         (preLogs p data ++
          if debug p then
            [ConsoleLog (js "Dropping message " ++ quote ++ stripCRC data ++ quote
                         ++ js ", already processed message from this burst.")]
          else []).
  split; [by rewrite delivered_app, delivered_preLogs|].
  split; [rewrite delivered_app, delivered_preLogs; by destruct (debug p)|].
  intros now s. unfold runHandler.
  rewrite (parseMessage_accepted _ _ _ _ _ _ Hh Hi Hl).
  unfold acceptedTail, bind. rewrite checkCache_cases, Hd.
  fold (cacheKeyOf data).
  destruct (store s !! cacheKeyOf data) as [[[] e]|]; rewrite ?Hrun;
    try reflexivity;
    (destruct c as [m| |err]; [| |by destruct (Hc err)]);
    cbn [prepend app]; rewrite <- ?app_assoc, ?app_nil_r; reflexivity.
Qed.

Lemma delivered_logs_message (logs : list effect) (decoded : option sensorMessage)
    (t : Z) :
  delivered logs = [] ->
  delivered (logs ++ match decoded with
                     | Some m => [OnSensorMessage (retime t m)]
                     | None => []
                     end)
  = match decoded with Some m => [retime t m] | None => [] end.
Proof. intros H. rewrite delivered_app, H. by destruct decoded. Qed.

(** A frame that was delivered had an accepted header and a registered
    type. *)
Lemma delivered_frame_accepted Math_pow p now data s m :
  m ∈ delivered (effectsOf (runHandler (parseMessage Math_pow p now data) s)) ->
  headerAccepted data
  /\ includes IGNORABLE_MESSAGE_TYPES (messageTypeOf data) = false
  /\ exists name, lookupType MESSAGE_TYPES (messageTypeOf data) = Some name.
Proof.
  intros Hm.
  destruct (headerAccepted_dec data) as [Hh|Hh].
  2:{ destruct (rejected_header_result Math_pow p now data s Hh) as (es & He & Hes).
      unfold runHandler in Hm. rewrite He in Hm. unfold effectsOf in Hm; cbn [fst snd] in Hm. rewrite Hes in Hm.
      by apply elem_of_nil in Hm. }
  destruct (includes IGNORABLE_MESSAGE_TYPES (messageTypeOf data)) eqn:Hi.
  { destruct (unregistered_type_not_delivered Math_pow p now data s (or_introl Hi))
      as (o & es & Hr & Hes & _).
    rewrite Hr in Hm. unfold effectsOf in Hm; cbn [fst snd] in Hm. rewrite Hes in Hm. by apply elem_of_nil in Hm. }
  destruct (lookupType MESSAGE_TYPES (messageTypeOf data)) as [name|] eqn:Hl.
  { split; [exact Hh|]. split; [reflexivity|]. by exists name. }
  destruct (unregistered_type_not_delivered Math_pow p now data s (or_intror Hl))
    as (o & es & Hr & Hes & _).
  rewrite Hr in Hm. unfold effectsOf in Hm; cbn [fst snd] in Hm. rewrite Hes in Hm. by apply elem_of_nil in Hm.
Qed.

Lemma sweepsUpTo_weaken (t t' : Z) (evs : list event) :
  t <= t' -> sweepsUpTo t evs -> sweepsUpTo t' evs.
Proof.
  intros Ht H. unfold sweepsUpTo in *. eapply Forall_impl; [exact H|].
  intros [| now |]; [done| |done]. cbn. lia.
Qed.

(** C3 (amended): with [deDuplicateBursts] on, a frame whose fingerprint
    the cache holds is dropped before delivery.  When a frame has been
    delivered at time [t1], a repeat before [t1 + 30 s] is dropped, whatever
    events came in between, so that the two submissions make one callback
    invocation; the entry is removed by the first cleanup pass that runs
    after [t1 + 30 s], and a repeat after that pass is delivered again, as
    the same message with the timestamp of its own time.  (A frame that the
    decoder vetoes is never delivered, and a repeat after the 30 seconds but
    before the next cleanup pass is still dropped, as the runs below
    show.) *)
Theorem duplicate_bursts_dropped
    (Math_pow : number -> number -> number) (p : params) (data : jsstring) :
  truthy (deDuplicateBursts p) = true ->
  (forall now s e,
      store s !! cacheKeyOf data = Some (true, e) ->
      exists o es,
        runHandler (parseMessage Math_pow p now data) s = (o, s, es)
        /\ delivered es = [])
  /\ (forall t1 s0 s0' es0 m evs s1 es1,
         runHandler (parseMessage Math_pow p t1 data) s0 = (Returned, s0', es0) ->
         delivered es0 = [m] ->
         run Math_pow p evs s0' = (Returned, s1, es1) ->
         (forall t2,
             t2 < t1 + cache.ttl * 1000 ->
             sweepsUpTo t2 evs ->
             exists es2,
               runHandler (parseMessage Math_pow p t2 data) s1 = (Returned, s1, es2)
               /\ delivered es2 = [])
         /\ (forall ts evs' t3,
                sweepsUpTo (t1 + cache.ttl * 1000) evs ->
                t1 + cache.ttl * 1000 < ts ->
                onlySweeps evs' ->
                exists s2 es2 s3 es3,
                  run Math_pow p (CacheTimer ts :: evs') s1 = (Returned, s2, es2)
                  /\ delivered es2 = []
                  /\ runHandler (parseMessage Math_pow p t3 data) s2
                     = (Returned, s3, es3)
                  /\ delivered es3 = [retime (timestampAt p t3) m])).
Proof.
  intros Hd. split.
  - intros now s e Hk.
    destruct (headerAccepted_dec data) as [Hh|Hh].
    2:{ destruct (rejected_header_result Math_pow p now data s Hh) as (es & He & Hes).
        exists Returned, es. unfold runHandler. by rewrite He. }
    destruct (includes IGNORABLE_MESSAGE_TYPES (messageTypeOf data)) eqn:Hi.
    { destruct (unregistered_type_not_delivered Math_pow p now data s (or_introl Hi))
        as (o & es & Hr & Hes & _). by exists o, es. }
    destruct (lookupType MESSAGE_TYPES (messageTypeOf data)) as [name|] eqn:Hl.
    2:{ destruct (unregistered_type_not_delivered Math_pow p now data s (or_intror Hl))
          as (o & es & Hr & Hes & _). by exists o, es. }
    destruct (accepted_frame_run Math_pow p data name Hh Hi Hl Hd)
      as (decoded & logs & dropLogs & Hlogs & Hdrop & Hrun).
    exists Returned, dropLogs. by rewrite Hrun, Hk.
  - intros t1 s0 s0' es0 m evs s1 es1 Hfirst Hm Hevs.
    assert (Hin : m ∈ delivered (effectsOf
                     (runHandler (parseMessage Math_pow p t1 data) s0))).
    { rewrite Hfirst. unfold effectsOf. cbn [snd]. rewrite Hm.
      apply list_elem_of_singleton. reflexivity. }
    destruct (delivered_frame_accepted Math_pow p t1 data s0 m Hin)
      as (Hh & Hi & name & Hl).
    destruct (accepted_frame_run Math_pow p data name Hh Hi Hl Hd)
      as (decoded & logs & dropLogs & Hlogs & Hdrop & Hrun).
    (* the first submission inserted the fingerprint *)
    rewrite Hrun in Hfirst.
    assert (Hins : s0' = withStore s0 (<[cacheKeyOf data := (true, t1 + cache.ttl * 1000)]>
                                         (store s0))
                   /\ exists m0, decoded = Some m0
                                  /\ m = retime (timestampAt p t1) m0).
    { destruct (store s0 !! cacheKeyOf data) as [[[] e]|];
        injection Hfirst as <- <-;
        try (rewrite Hdrop in Hm; discriminate);
        rewrite (delivered_logs_message _ _ _ Hlogs) in Hm;
        (destruct decoded as [m0|]; [|discriminate]);
        injection Hm as <-; (split; [reflexivity|]); by exists m0. }
    destruct Hins as (-> & m0 & -> & ->).
    assert (Hk0 : store (withStore s0 (<[cacheKeyOf data := (true, t1 + cache.ttl * 1000)]>
                                         (store s0))) !! cacheKeyOf data
                  = Some (true, t1 + cache.ttl * 1000)).
    { cbn [store withStore]. apply lookup_insert_eq. }
    assert (Hk1 : sweepsUpTo (t1 + cache.ttl * 1000) evs ->
                  store s1 !! cacheKeyOf data = Some (true, t1 + cache.ttl * 1000)).
    { intros Hs. pose proof (run_keeps_entry Math_pow p evs _ _ _ Hk0 Hs) as H.
      by rewrite Hevs in H. }
    split.
    + intros t2 Ht2 Hs.
      assert (Hs' : sweepsUpTo (t1 + cache.ttl * 1000) evs).
      { apply (sweepsUpTo_weaken t2); [lia|exact Hs]. }
      exists dropLogs. by rewrite Hrun, (Hk1 Hs').
    + intros ts evs' t3 Hs Hts' Hevs'.
      destruct (sweep_removes_expired Math_pow p ts s1 _ _ _ (Hk1 Hs) Hts')
        as [Hsweep Hgone].
      set (s1' := withStore s1 (filter (fun kv => ts <= kv.2.2) (store s1))) in *.
      destruct (sweeps_keep_absent Math_pow p evs' s1' (cacheKeyOf data) Hgone Hevs')
        as (Ho & Habsent & Hquiet).
      cbn [run]. rewrite Hsweep.
      destruct (run Math_pow p evs' s1') as [[o s2] es2].
      unfold outcomeOf, stateOf, effectsOf in Ho, Habsent, Hquiet.
      cbn [fst snd] in Ho, Habsent, Hquiet. subst o.
      exists s2, ([] ++ es2). do 2 eexists.
      split; [reflexivity|]. split; [exact Hquiet|].
      rewrite Hrun, Habsent. split; [reflexivity|].
      by rewrite delivered_app, Hlogs.
Qed.

Lemma duplicate_bursts_dropped_witness :
  truthy (deDuplicateBursts celsiusOptions) = true
  /\ (exists o es,
        runHandler (parseMessage noPow celsiusOptions 5000 tempHumidityData)
                   (withStore readyState
                      {[ cacheKeyOf tempHumidityData := (true, 31000) ]})
        = (o, withStore readyState
                {[ cacheKeyOf tempHumidityData := (true, 31000) ]}, es)
        /\ delivered es = [])
  /\ (exists es2,
        runHandler (parseMessage noPow celsiusOptions 7000 tempHumidityData)
                   (stateOf (run noPow celsiusOptions
                                 [CacheTimer 3000; CacheTimer 6000]
                                 (stateOf (runHandler
                                    (parseMessage noPow celsiusOptions 1000
                                                  tempHumidityData)
                                    readyState))))
        = (Returned,
           stateOf (run noPow celsiusOptions
                        [CacheTimer 3000; CacheTimer 6000]
                        (stateOf (runHandler
                           (parseMessage noPow celsiusOptions 1000
                                         tempHumidityData)
                           readyState))),
           es2)
        /\ delivered es2 = [])
  /\ (exists s2 es2 s3 es3,
        run noPow celsiusOptions [CacheTimer 33000]
            (stateOf (run noPow celsiusOptions
                          [CacheTimer 3000; CacheTimer 6000]
                          (stateOf (runHandler
                             (parseMessage noPow celsiusOptions 1000
                                           tempHumidityData)
                             readyState))))
        = (Returned, s2, es2)
        /\ delivered es2 = []
        /\ runHandler (parseMessage noPow celsiusOptions 34000 tempHumidityData) s2
           = (Returned, s3, es3)
        /\ delivered es3 = [retime 34 (retime 1 tempHumidityMessage)]).
Proof.
  assert (H : truthy (deDuplicateBursts celsiusOptions) = true) by reflexivity.
  split; [exact H|].
  split.
  { apply (proj1 (duplicate_bursts_dropped noPow celsiusOptions
                    tempHumidityData H) 5000 _ 31000).
    cbn [store withStore]. apply lookup_singleton_eq. }
  destruct (proj2 (duplicate_bursts_dropped noPow celsiusOptions
                     tempHumidityData H)
              1000 readyState
              (stateOf (runHandler (parseMessage noPow celsiusOptions 1000
                                                 tempHumidityData) readyState))
              (effectsOf (runHandler (parseMessage noPow celsiusOptions 1000
                                                   tempHumidityData) readyState))
              (retime 1 tempHumidityMessage)
              [CacheTimer 3000; CacheTimer 6000]
              (stateOf (run noPow celsiusOptions
                            [CacheTimer 3000; CacheTimer 6000]
                            (stateOf (runHandler
                               (parseMessage noPow celsiusOptions 1000
                                             tempHumidityData) readyState))))
              [])
    as [Hin Hout].
  - vm_compute. reflexivity.
  - vm_compute. reflexivity.
  - vm_compute. reflexivity.
  - split.
    + apply (Hin 7000); [reflexivity|].
      repeat constructor; vm_compute; discriminate.
    + apply (Hout 33000 [] 34000).
      * repeat constructor; vm_compute; discriminate.
      * reflexivity.
      * constructor.
Defined.

(** C3, as stated, fails in two ways.  A repeat 31 seconds after the
    first submission, the cleanup passes having run every 3 seconds, finds
    the entry still in the cache (it expired at 31 s and the next pass is at
    33 s) and is dropped: one invocation, not two.  And a frame that the
    decoder vetoes (a boot frame with boot messages off) makes no
    invocation at all when submitted twice. *)
Lemma dedup_window_exceptions :
  (1000 + cache.ttl * 1000 < 32000
   /\ delivered (effectsOf (run noPow celsiusOptions
                    ([SerialData 1000 tempHumidityFrame] ++ sweeps
                     ++ [SerialData 32000 tempHumidityFrame])
                    readyState))
      = [retime 1 tempHumidityMessage])
  /\ delivered (effectsOf (run noPow filtersOff
                   [ SerialData 1000 (js ">" ++ bootFrame);
                     SerialData 2000 (js ">" ++ bootFrame) ]
                   readyState)) = [].
Proof. repeat split; vm_compute; reflexivity. Qed.

(** For comparison: after the pass at 33 seconds the repeat is delivered. *)
Example repeat_after_cleanup_delivered :
  delivered (effectsOf (run noPow celsiusOptions
               ([SerialData 1000 tempHumidityFrame] ++ sweeps
                ++ [CacheTimer 33000; SerialData 34000 tempHumidityFrame])
               readyState))
  = [retime 1 tempHumidityMessage; retime 34 tempHumidityMessage].
Proof. vm_compute. reflexivity. Qed.
